(** * aero-optical-flow: the main loop of the optical-flow sensor

    A shallow embedding of [src/mainloop.cpp]: the frame callback
    [Mainloop::camera_callback], the dispatch of one [poll] wake-up in
    [Mainloop::loop], and the start-up / tear-down sequence of
    [Mainloop::run].

    Conventions.  C integers are values in [Z]; a conversion to an unsigned
    type of [w] bits is written out as a reduction modulo [2^w].  The
    collaborators (flow estimator, inertial sensor) are opaque: they are
    type classes giving the member functions the main loop calls, each as
    a function from the collaborator's state to its new state and result.
    The telemetry transport is the list of messages written to it.

    Left out: the [DEBUG_LEVEL] blocks (a window and a log line), the
    [ERROR] log lines of [run], and OpenCV's own check that the crop
    rectangle lies inside the frame (the cropped view is taken to exist). *)

From Stdlib Require Import ZArith List Bool Lia PrimFloat FloatOps SpecFloat.
Import ListNotations.
Local Open Scope Z_scope.

(** ** Machine integers *)

Definition to_uint8 (v : Z) : Z := v mod 2 ^ 8.
Definition to_uint32 (v : Z) : Z := v mod 2 ^ 32.
Definition to_uint64 (v : Z) : Z := v mod 2 ^ 64.

(** The conversion of a [double] to [float]: rounding to the nearest
    binary32 value (24 bits of precision, ties to even), to an infinity
    beyond its range; zeros, infinities and NaN are kept. *)
Definition double_to_float (d : float) : float :=
  match Prim2SF d with
  | S754_finite s m e => SF2Prim (binary_round 24 128 s m e)
  | _ => d
  end.

(** Modelled from the spec: [util.h] is not under src/; the macro is the
    number of microseconds in a second (the spec's timestamps are in
    microseconds: sec=1, usec=33000 is 1033000). *)
Definition USEC_PER_SEC : Z := 1000000.

(** ** Plain data *)

(** [struct timeval]: the capture time of a frame. *)
Module Timeval.
Record t : Type := mk { tv_sec : Z; tv_usec : Z }.
End Timeval.

(** [struct timespec]: the time of a gyroscope sample. *)
Module Timespec.
Record t : Type := mk { tv_sec : Z; tv_nsec : Z }.

Definition eqb (a b : t) : bool :=
  (tv_sec a =? tv_sec b) && (tv_nsec a =? tv_nsec b).

(** Lexicographic "earlier than". *)
Definition ltb (a b : t) : bool :=
  (tv_sec a <? tv_sec b) || ((tv_sec a =? tv_sec b) && (tv_nsec a <? tv_nsec b)).
End Timespec.

(** [cv::Point3_<double>].  A [double] is a binary64 number; a C [float]
    is carried as the binary64 number equal to it (every binary32 value is
    one), and [double_to_float] is the conversion between the two. *)
Module Point3.
Record t : Type := mk { x : float; y : float; z : float }.
End Point3.

(** [cv::Rect]. *)
Record Rect : Type := mkRect { rect_x : Z; rect_y : Z; rect_width : Z; rect_height : Z }.

(** A frame buffer ([const void *img], one byte per pixel) and a pointer
    into it ([cv::Mat::data] of a region of interest). *)
Definition image : Type := list Z.
Record uchar_ptr : Type := mkPtr { ptr_base : image; ptr_offset : Z }.

(** What [calcFlow] hands back: its return value and the three reference
    parameters, which the callback initialises to 0 before the call. *)
Record FlowResult : Type := mkFlow {
  flow_quality : Z;
  dt_us : Z;
  flow_x_ang : float;
  flow_y_ang : float
}.

(** Modelled from the spec: [mavlink_optical_flow_rad_t] (the spec's
    TelemetryMessage) is declared by the MAVLink headers, which are not
    under src/.  The fields have the types of MAVLink's OPTICAL_FLOW_RAD
    message: [uint64_t time_usec], [uint32_t integration_time_us],
    [float integrated_x], [integrated_y], [integrated_xgyro],
    [integrated_ygyro], [integrated_zgyro], [int16_t temperature],
    [uint8_t quality], [uint32_t time_delta_distance_us], [float distance],
    [uint8_t sensor_id].  An integer field holds a value in its type's
    range, a [float] field a binary32 value. *)
Record mavlink_optical_flow_rad_t : Type := mkMsg {
  time_usec : Z;
  integration_time_us : Z;
  integrated_x : float;
  integrated_y : float;
  integrated_xgyro : float;
  integrated_ygyro : float;
  integrated_zgyro : float;
  time_delta_distance_us : Z;
  distance : float;
  temperature : Z;
  sensor_id : Z;
  quality : Z
}.

(** A message with its [time_usec] replaced. *)
Definition with_time_usec (t : Z) (m : mavlink_optical_flow_rad_t)
  : mavlink_optical_flow_rad_t :=
  {| time_usec := t;
     integration_time_us := integration_time_us m;
     integrated_x := integrated_x m;
     integrated_y := integrated_y m;
     integrated_xgyro := integrated_xgyro m;
     integrated_ygyro := integrated_ygyro m;
     integrated_zgyro := integrated_zgyro m;
     time_delta_distance_us := time_delta_distance_us m;
     distance := distance m;
     temperature := temperature m;
     sensor_id := sensor_id m;
     quality := quality m |}.

(** ** Collaborators *)

(** [OpticalFlowOpenCV]: the member functions [camera_callback] calls. *)
Class OpticalFlowOpenCV (E : Type) : Type := {
  getImageWidth : E -> Z;
  getImageHeight : E -> Z;
  calcFlow : E -> uchar_ptr -> Z -> E * FlowResult
}.

(** [BMI160]: [gyro_integrated_get] fills a sample and its time. *)
Class BMI160 (B : Type) : Type := {
  gyro_integrated_get : B -> B * (Point3.t * Timespec.t)
}.

(** [Camera]: the two fields the callback reads. *)
Record Camera : Type := mkCamera { width : Z; height : Z }.

(** [Mavlink_UDP]: the messages handed to [optical_flow_rad_msg_write],
    oldest first. *)
Record Mavlink_UDP : Type := mkMavlink { written : list mavlink_optical_flow_rad_t }.

Definition optical_flow_rad_msg_write (m : Mavlink_UDP) (msg : mavlink_optical_flow_rad_t)
  : Mavlink_UDP :=
  {| written := written m ++ [msg] |}.

(** ** The frame callback *)

(** [timestamp->tv_usec + timestamp->tv_sec * USEC_PER_SEC], a 64-bit
    unsigned expression. *)
Definition timestamp_usec (timestamp : Timeval.t) : Z :=
  to_uint64 (Timeval.tv_usec timestamp + Timeval.tv_sec timestamp * USEC_PER_SEC).

(** Line 131: [uint32_t img_time_us = ...]. *)
Definition raw_img_time_us (timestamp : Timeval.t) : Z :=
  to_uint32 (timestamp_usec timestamp).

(** Lines 136-144: the value of [_camera_initial_timestamp] and of
    [img_time_us] after the [if]. *)
Definition rebase (initial img_time_us : Z) : Z * Z :=
  if negb (initial =? 0)
  then (initial, to_uint32 (img_time_us - initial))
  else (img_time_us, 0).

Section Mainloop.
Context {E B : Type} `{OpticalFlowOpenCV E} `{BMI160 B}.

(** The members of [class Mainloop] the callback uses. *)
Record Mainloop : Type := mkMainloop {
  _camera : Camera;
  _optical_flow : E;
  _bmi : B;
  _mavlink : Mavlink_UDP;
  _camera_initial_timestamp : Z;
  _camera_prev_timestamp : Z;
  _gyro_last_timespec : Timespec.t
}.

(** Lines 122-125: the crop rectangle, centred on the frame, and the
    [data] pointer of the cropped view of a [CV_8UC1] matrix. *)
Definition crop_rect (s : Mainloop) : Rect :=
  let e := _optical_flow s in
  mkRect (width (_camera s) ÷ 2 - getImageWidth e ÷ 2)
         (height (_camera s) ÷ 2 - getImageHeight e ÷ 2)
         (getImageWidth e) (getImageHeight e).

Definition cropped_data (s : Mainloop) (img : image) : uchar_ptr :=
  let crop := crop_rect s in
  mkPtr img (rect_y crop * width (_camera s) + rect_x crop).

(** Lines 131-144: the rebased [img_time_us] passed to the estimator. *)
Definition rebased_time (s : Mainloop) (timestamp : Timeval.t) : Z :=
  snd (rebase (_camera_initial_timestamp s) (raw_img_time_us timestamp)).

(** Line 146: the call of the estimator. *)
Definition flow_call (s : Mainloop) (img : image) (timestamp : Timeval.t)
  : E * FlowResult :=
  calcFlow (_optical_flow s) (cropped_data s img) (rebased_time s timestamp).

(** Lines 176-188: the message.  Each assignment converts to the field's
    type: [int dt_us] to [uint32_t], the [double] gyro values to [float],
    [int flow_quality] to [uint8_t]; [flow_x_ang] and [flow_y_ang] are
    [float] already, and the constants are exact. *)
Definition build_msg (timestamp : Timeval.t) (r : FlowResult) (gyro_data : Point3.t)
  : mavlink_optical_flow_rad_t :=
  {| time_usec := timestamp_usec timestamp;
     integration_time_us := to_uint32 (dt_us r);
     integrated_x := flow_x_ang r;
     integrated_y := flow_y_ang r;
     integrated_xgyro := double_to_float (Point3.x gyro_data);
     integrated_ygyro := double_to_float (Point3.y gyro_data);
     integrated_zgyro := double_to_float (Point3.z gyro_data);
     time_delta_distance_us := 0;
     distance := (-1.0)%float;
     temperature := 0;
     sensor_id := 0;
     quality := to_uint8 (flow_quality r) |}.

(** [Mainloop::camera_callback]. *)
Definition camera_callback (s : Mainloop) (img : image) (len : Z) (timestamp : Timeval.t)
  : Mainloop :=
  let cropped := cropped_data s img in
  let img_time_us := raw_img_time_us timestamp in
  let t := rebase (_camera_initial_timestamp s) img_time_us in
  let img_time_us := snd t in
  let f := calcFlow (_optical_flow s) cropped img_time_us in
  let g := gyro_integrated_get (_bmi s) in
  let gyro_data := fst (snd g) in
  let gyro_timespec := snd (snd g) in
  if Timespec.eqb (_gyro_last_timespec s) gyro_timespec then
    {| _camera := _camera s;
       _optical_flow := fst f;
       _bmi := fst g;
       _mavlink := _mavlink s;
       _camera_initial_timestamp := fst t;
       _camera_prev_timestamp := img_time_us;
       _gyro_last_timespec := _gyro_last_timespec s |}
  else if flow_quality (snd f) <? 0 then
    {| _camera := _camera s;
       _optical_flow := fst f;
       _bmi := fst g;
       _mavlink := _mavlink s;
       _camera_initial_timestamp := fst t;
       _camera_prev_timestamp := img_time_us;
       _gyro_last_timespec := gyro_timespec |}
  else
    {| _camera := _camera s;
       _optical_flow := fst f;
       _bmi := fst g;
       _mavlink := optical_flow_rad_msg_write (_mavlink s)
                     (build_msg timestamp (snd f) gyro_data);
       _camera_initial_timestamp := fst t;
       _camera_prev_timestamp := img_time_us;
       _gyro_last_timespec := gyro_timespec |}.

End Mainloop.

Arguments Mainloop E B : clear implicits.

(** ** Delivering a sequence of frames *)

(** One delivered frame: the arguments of [camera_callback]. *)
Record Frame : Type := mkFrame { f_img : image; f_len : Z; f_time : Timeval.t }.

Section Delivery.
Context {E B : Type} `{OpticalFlowOpenCV E} `{BMI160 B}.

(** The session states after each of the callbacks, in order. *)
Fixpoint deliver (s : Mainloop E B) (frames : list Frame) : list (Mainloop E B) :=
  match frames with
  | [] => []
  | f :: rest =>
      let s' := camera_callback s (f_img f) (f_len f) (f_time f) in
      s' :: deliver s' rest
  end.

(** The session state after all of them. *)
Definition deliver_all (s : Mainloop E B) (frames : list Frame) : Mainloop E B :=
  fold_left (fun s f => camera_callback s (f_img f) (f_len f) (f_time f)) frames s.

(** The rebased timestamp of each frame, as left in
    [_camera_prev_timestamp]. *)
Definition rebased_sequence (s : Mainloop E B) (frames : list Frame) : list Z :=
  map _camera_prev_timestamp (deliver s frames).

(** The time of the sample [gyro_integrated_get] returns next. *)
Definition gyro_stamp (b : B) : Timespec.t := snd (snd (gyro_integrated_get b)).

(** The messages a state has on top of an earlier one. *)
Definition emitted (s s' : Mainloop E B) : list mavlink_optical_flow_rad_t :=
  skipn (length (written (_mavlink s))) (written (_mavlink s')).
End Delivery.

(** The microsecond count of a [timeval] as a mathematical integer. *)
Definition usec_of (timestamp : Timeval.t) : Z :=
  Timeval.tv_usec timestamp + Timeval.tv_sec timestamp * USEC_PER_SEC.

(** ** Scripted collaborators

    Test doubles used to run the callback on concrete inputs: an estimator
    and an inertial sensor that play back a list of answers. *)

Record ScriptedFlow : Type := mkScriptedFlow { flow_script : list FlowResult }.
Record ScriptedGyro : Type := mkScriptedGyro { gyro_script : list (Point3.t * Timespec.t) }.

Definition not_ready : FlowResult := mkFlow (-1) 0 0%float 0%float.

#[export] Instance scripted_flow_ops : OpticalFlowOpenCV ScriptedFlow := {
  getImageWidth _ := 64;
  getImageHeight _ := 64;
  calcFlow e _ _ :=
    match flow_script e with
    | [] => (e, not_ready)
    | r :: rest => (mkScriptedFlow rest, r)
    end
}.

#[export] Instance scripted_gyro_ops : BMI160 ScriptedGyro := {
  gyro_integrated_get b :=
    match gyro_script b with
    | [] => (b, (Point3.mk 0%float 0%float 0%float, Timespec.mk 0 0))
    | g :: rest => (mkScriptedGyro rest, g)
    end
}.

Definition session (flows : list FlowResult) (gyros : list (Point3.t * Timespec.t))
  : Mainloop ScriptedFlow ScriptedGyro :=
  {| _camera := mkCamera 640 480;
     _optical_flow := mkScriptedFlow flows;
     _bmi := mkScriptedGyro gyros;
     _mavlink := mkMavlink [];
     _camera_initial_timestamp := 0;
     _camera_prev_timestamp := 0;
     _gyro_last_timespec := Timespec.mk 0 0 |}.

Definition ready (q : Z) : FlowResult := mkFlow q 33000 0.5%float 0.25%float.
Definition sample (sec : Z) : Point3.t * Timespec.t :=
  (Point3.mk 0.125%float (-2)%float 4%float, Timespec.mk sec 500).
Definition frame (sec usec : Z) : Frame := mkFrame [] 0 (Timeval.mk sec usec).

(** Collaborators with a steady behaviour: an estimator that reports
    quality 0 at every call, and an inertial sensor whose sample time
    advances by one second at every query. *)
Record SteadyFlow : Type := mkSteadyFlow { calls : Z }.
Record SteadyGyro : Type := mkSteadyGyro { ticks : Z }.

#[export] Instance steady_flow_ops : OpticalFlowOpenCV SteadyFlow := {
  getImageWidth _ := 64;
  getImageHeight _ := 64;
  calcFlow e _ _ := (mkSteadyFlow (calls e + 1), mkFlow 0 33000 0.5%float 0.25%float)
}.

#[export] Instance steady_gyro_ops : BMI160 SteadyGyro := {
  gyro_integrated_get b :=
    (mkSteadyGyro (ticks b + 1),
     (Point3.mk 0.125%float (-2)%float 4%float, Timespec.mk (ticks b + 1) 0))
}.

Definition steady_session : Mainloop SteadyFlow SteadyGyro :=
  {| _camera := mkCamera 640 480;
     _optical_flow := mkSteadyFlow 0;
     _bmi := mkSteadyGyro 0;
     _mavlink := mkMavlink [];
     _camera_initial_timestamp := 0;
     _camera_prev_timestamp := 0;
     _gyro_last_timespec := Timespec.mk 0 0 |}.

(** An estimator that keeps the pointer offset and the time of every call
    it receives, oldest first, and reports quality 0. *)
Record RecordingFlow : Type := mkRecordingFlow { given : list (Z * Z) }.

#[export] Instance recording_flow_ops : OpticalFlowOpenCV RecordingFlow := {
  getImageWidth _ := 64;
  getImageHeight _ := 64;
  calcFlow e p t :=
    (mkRecordingFlow (given e ++ [(ptr_offset p, t)]),
     mkFlow 0 33000 0.5%float 0.25%float)
}.

Definition recording_session : Mainloop RecordingFlow SteadyGyro :=
  {| _camera := mkCamera 640 480;
     _optical_flow := mkRecordingFlow [];
     _bmi := mkSteadyGyro 0;
     _mavlink := mkMavlink [];
     _camera_initial_timestamp := 0;
     _camera_prev_timestamp := 0;
     _gyro_last_timespec := Timespec.mk 0 0 |}.

(** ** The event loop *)

(** The three members [loop] polls, in the order of its [pollables] array. *)
Inductive Source : Type := SrcCamera | SrcBmi | SrcMavlink.

(** The calls [loop] makes on a [Pollable]. *)
Inductive Call : Type :=
| handle_read (p : Source)
| handle_canwrite (p : Source).

(** [struct pollfd] and the event bits of Linux's [<poll.h>]. *)
Record pollfd : Type := mkPollfd { fd : Z; events : Z; revents : Z }.

Definition POLLIN : Z := 1.
Definition POLLPRI : Z := 2.
Definition POLLOUT : Z := 4.

(** The [_fd] member of each [Pollable]. *)
Record Fds : Type := mkFds { camera_fd : Z; bmi_fd : Z; mavlink_fd : Z }.

Definition fd_of (fds : Fds) (p : Source) : Z :=
  match p with
  | SrcCamera => camera_fd fds
  | SrcBmi => bmi_fd fds
  | SrcMavlink => mavlink_fd fds
  end.

(** Line 72. *)
Definition pollables : list Source := [SrcCamera; SrcBmi; SrcMavlink].

(** Lines 79-83: the descriptor array before the first [poll]. *)
Definition desc_init (fds : Fds) : list pollfd :=
  map (fun p => mkPollfd (fd_of fds p) POLLIN 0) pollables.

(** What one call of [poll] leaves: its return value and the [revents] it
    wrote, one per descriptor. *)
Record PollResult : Type := mkPoll { poll_ret : Z; poll_revents : list Z }.

Definition set_revents (desc : list pollfd) (rs : list Z) : list pollfd :=
  map (fun dr => mkPollfd (fd (fst dr)) (events (fst dr)) (snd dr)) (combine desc rs).

(** [poll]'s contract for a non-negative return: the number of descriptors
    whose [revents] is not zero. *)
Definition ready_count (rs : list Z) : Z :=
  Z.of_nat (length (filter (fun r => negb (r =? 0)) rs)).

(** Lines 92-102: the inner [for], which stops at the first pollable whose
    [_fd] equals the descriptor's. *)
Fixpoint dispatch_desc (fds : Fds) (d : pollfd) (ps : list Source) : list Call :=
  match ps with
  | [] => []
  | p :: ps' =>
      if fd d =? fd_of fds p then
        (if negb (Z.land (revents d) (Z.lor POLLIN POLLPRI) =? 0)
         then [handle_read p] else [])
        ++ (if negb (Z.land (revents d) POLLOUT =? 0)
            then [handle_canwrite p] else [])
      else dispatch_desc fds d ps'
  end.

(** Line 91: [for (i = 0; ret && i < 3; i++, ret--)]. *)
Fixpoint dispatch (fds : Fds) (ret : Z) (desc : list pollfd) : list Call :=
  match desc with
  | [] => []
  | d :: rest =>
      if negb (ret =? 0)
      then dispatch_desc fds d pollables ++ dispatch fds (ret - 1) rest
      else []
  end.

(** Lines 86-103: one iteration of the [while], after [poll] returned. *)
Definition loop_iteration (fds : Fds) (r : PollResult) : list Call :=
  if poll_ret r <? 1 then []
  else dispatch fds (poll_ret r) (set_revents (desc_init fds) (poll_revents r)).

(** [Mainloop::loop] over the [poll] results seen until [_should_run] was
    cleared. *)
Definition loop (fds : Fds) (polls : list PollResult) : list Call :=
  flat_map (loop_iteration fds) polls.

(** What the specification asks of a wake-up: every descriptor with events
    pending is dispatched, in array order.  (Follows the spec's words; it
    is compared with [loop_iteration] below.) *)
Definition spec_dispatch_all (fds : Fds) (r : PollResult) : list Call :=
  flat_map (fun d => dispatch_desc fds d pollables)
           (set_revents (desc_init fds) (poll_revents r)).

(** ** Start-up and tear-down *)

Inductive Collaborator : Type := TheCamera | TheMavlink | TheOpticalFlow | TheBmi.

(** The operations [run] performs on its collaborators. *)
Inductive Action : Type :=
| New (c : Collaborator)          (* [new] returned an object *)
| NoMemory (c : Collaborator)     (* [new] threw [std::bad_alloc] *)
| Init (c : Collaborator)         (* [init] was called *)
| CallbackSet
| Calibrate
| Start
| LoopRun
| Stop
| Shutdown                        (* [_camera->shutdown()] *)
| Delete (c : Collaborator).

(** How [run] is left: by a [return], or by the [std::bad_alloc] of a
    new-expression.  A plain [new] never yields a null pointer, it throws;
    so the null tests of lines 202, 214, 227 and 234 are never taken, and
    nothing catches the exception. *)
Inductive Outcome : Type :=
| Return (v : Z)
| BadAlloc.

(** The outcomes of the fallible steps of [run]; a [new] that is [false]
    is one that throws. *)
Record Startup : Type := mkStartup {
  camera_new : bool;
  camera_init : Z;
  mavlink_new : bool;
  mavlink_init : Z;
  optical_flow_new : bool;
  bmi_new : bool;
  bmi_init : Z;
  bmi_start : Z
}.

(** Lines 270-281: the clean-up labels; each falls through to the next. *)
Definition camera_init_error : list Action := [Delete TheCamera].
Definition mavlink_memory_error : list Action := Shutdown :: camera_init_error.
Definition mavlink_init_error : list Action := Delete TheMavlink :: mavlink_memory_error.
Definition optical_memory_error : list Action := mavlink_init_error.
Definition bmi_memory : list Action := Delete TheOpticalFlow :: optical_memory_error.
Definition bmi_error : list Action := Delete TheBmi :: bmi_memory.

(** [Mainloop::run]: the actions performed and how it is left. *)
Definition run (o : Startup) (calibrate_bmi : bool) : list Action * Outcome :=
  if negb (camera_new o) then ([NoMemory TheCamera], BadAlloc) else
  let t := [New TheCamera; Init TheCamera] in
  if negb (camera_init o =? 0) then (t ++ camera_init_error, Return (-1)) else
  if negb (mavlink_new o) then (t ++ [NoMemory TheMavlink], BadAlloc) else
  let t := t ++ [New TheMavlink; Init TheMavlink] in
  if negb (mavlink_init o =? 0) then (t ++ mavlink_init_error, Return (-1)) else
  if negb (optical_flow_new o) then (t ++ [NoMemory TheOpticalFlow], BadAlloc) else
  let t := t ++ [New TheOpticalFlow; CallbackSet] in
  if negb (bmi_new o) then (t ++ [NoMemory TheBmi], BadAlloc) else
  let t := t ++ [New TheBmi; Init TheBmi] in
  if negb (bmi_init o =? 0) then (t ++ bmi_error, Return (-1)) else
  let t := if calibrate_bmi then t ++ [Calibrate] else t in
  let t := t ++ [Start] in
  if negb (bmi_start o =? 0) then (t ++ bmi_error, Return (-1)) else
  (t ++ [LoopRun; Stop; Delete TheBmi; Delete TheOpticalFlow; Delete TheMavlink;
         Shutdown; Delete TheCamera], Return 0).

Definition Collaborator_eqb (a b : Collaborator) : bool :=
  match a, b with
  | TheCamera, TheCamera | TheMavlink, TheMavlink
  | TheOpticalFlow, TheOpticalFlow | TheBmi, TheBmi => true
  | _, _ => false
  end.

(** The collaborators constructed, and those released, in order. *)
Definition constructed (t : list Action) : list Collaborator :=
  flat_map (fun a => match a with New c => [c] | _ => [] end) t.

Definition released (t : list Action) : list Collaborator :=
  flat_map (fun a => match a with Delete c => [c] | _ => [] end) t.

Definition times_released (c : Collaborator) (t : list Action) : nat :=
  length (filter (Collaborator_eqb c) (released t)).

Definition times_shutdown (t : list Action) : nat :=
  length (filter (fun a => match a with Shutdown => true | _ => false end) t).

(** The part of a trace from the first release or shutdown on. *)
Fixpoint teardown (t : list Action) : list Action :=
  match t with
  | [] => []
  | Delete c :: _ => t
  | Shutdown :: _ => t
  | _ :: rest => teardown rest
  end.

(** The calls the inner [for] makes on pollable [p] for events [r]. *)
Definition calls_for (p : Source) (r : Z) : list Call :=
  (if negb (Z.land r (Z.lor POLLIN POLLPRI) =? 0) then [handle_read p] else [])
  ++ (if negb (Z.land r POLLOUT =? 0) then [handle_canwrite p] else []).

(** The descriptors with events pending come before those with none. *)
Fixpoint ready_first (rs : list Z) : bool :=
  match rs with
  | [] => true
  | r :: rest => if r =? 0 then forallb (fun x => x =? 0) rest else ready_first rest
  end.

Definition call_source (c : Call) : Source :=
  match c with
  | handle_read p => p
  | handle_canwrite p => p
  end.

Definition POLLERR : Z := 8.
Definition POLLHUP : Z := 16.
Definition POLLNVAL : Z := 32.

(** [poll]'s contract on what it reports for a descriptor: events that were
    asked for in [events], and the three it reports unasked. *)
Definition poll_reports (desc : list pollfd) (rs : list Z) : Prop :=
  Forall2 (fun d rev =>
             Z.land rev (Z.lor (events d) (Z.lor POLLERR (Z.lor POLLHUP POLLNVAL))) = rev)
          desc rs.

(** ** Signals and the [_should_run] flag *)

(** The signals [signal_handlers_setup] gives a disposition to. *)
Inductive Signal : Type := SIGTERM | SIGINT | SIGPIPE.

Inductive Disposition : Type :=
| Handled      (* [sa_handler = exit_signal_handler] *)
| Ignored.     (* [sa_handler = SIG_IGN] *)

(** Lines 57-68. *)
Definition signal_handlers_setup (sig : Signal) : Disposition :=
  match sig with
  | SIGTERM => Handled
  | SIGINT => Handled
  | SIGPIPE => Ignored
  end.

(** Lines 52-55: the handler clears [_should_run], whatever the signal. *)
Definition exit_signal_handler (_should_run : bool) (signum : Signal) : bool := false.

(** [_should_run] after a signal has been delivered, the dispositions being
    those of [signal_handlers_setup]. *)
Definition signal_delivered (_should_run : bool) (sig : Signal) : bool :=
  match signal_handlers_setup sig with
  | Handled => exit_signal_handler _should_run sig
  | Ignored => _should_run
  end.

(** One pass through the body of the [while]: what [poll] returned, and the
    signals delivered between this test of [_should_run] and the next
    (during [poll], which then returns -1, or during a handler). *)
Record Iteration : Type := mkIteration { it_poll : PollResult; it_signals : list Signal }.

(** Lines 85-104: the [while], from a given value of [_should_run]. *)
Fixpoint loop_while (fds : Fds) (_should_run : bool) (its : list Iteration) : list Call :=
  match its with
  | [] => []
  | it :: rest =>
      if _should_run
      then loop_iteration fds (it_poll it)
           ++ loop_while fds (fold_left signal_delivered (it_signals it) _should_run) rest
      else []
  end.

(** [Mainloop::loop] with signals: line 77 sets [_should_run] before the
    first test. *)
Definition loop_signals (fds : Fds) (its : list Iteration) : list Call :=
  loop_while fds true its.

Definition terminates (sig : Signal) : bool :=
  match sig with
  | SIGPIPE => false
  | _ => true
  end.

(** ** Object lifetimes in [run] *)

Definition is_live (c : Collaborator) (live : list Collaborator) : bool :=
  existsb (Collaborator_eqb c) live.

Definition drop (c : Collaborator) (live : list Collaborator) : list Collaborator :=
  filter (fun d => negb (Collaborator_eqb c d)) live.

(** What an action needs to be well defined on the objects that exist, and
    the objects that exist after it; [None] when it is applied to an object
    that does not exist (or constructs one that does). *)
Definition lifecycle_step (live : list Collaborator) (a : Action)
  : option (list Collaborator) :=
  match a with
  | New c => if is_live c live then None else Some (c :: live)
  | NoMemory c => if is_live c live then None else Some live
  | Init c => if is_live c live then Some live else None
  | CallbackSet => if is_live TheCamera live then Some live else None
  | Calibrate | Start | Stop => if is_live TheBmi live then Some live else None
  | LoopRun =>
      if is_live TheCamera live && is_live TheBmi live && is_live TheMavlink live
         && is_live TheOpticalFlow live
      then Some live else None
  | Shutdown => if is_live TheCamera live then Some live else None
  | Delete c => if is_live c live then Some (drop c live) else None
  end.

Fixpoint lifecycle (live : list Collaborator) (t : list Action)
  : option (list Collaborator) :=
  match t with
  | [] => Some live
  | a :: rest =>
      match lifecycle_step live a with
      | Some live' => lifecycle live' rest
      | None => None
      end
  end.

(** Some new-expression of [run] is reached and throws. *)
Definition throws (o : Startup) : bool :=
  negb (camera_new o)
  || ((camera_init o =? 0)
      && (negb (mavlink_new o)
          || ((mavlink_init o =? 0)
              && (negb (optical_flow_new o) || negb (bmi_new o))))).

(** Every fallible step of [run] succeeded. *)
Definition all_started (o : Startup) : bool :=
  camera_new o && (camera_init o =? 0) && mavlink_new o && (mavlink_init o =? 0)
  && optical_flow_new o && bmi_new o && (bmi_init o =? 0) && (bmi_start o =? 0).

Definition is_action (a b : Action) : bool :=
  match a, b with
  | New c, New d | NoMemory c, NoMemory d | Init c, Init d | Delete c, Delete d =>
      Collaborator_eqb c d
  | CallbackSet, CallbackSet | Calibrate, Calibrate | Start, Start
  | LoopRun, LoopRun | Stop, Stop | Shutdown, Shutdown => true
  | _, _ => false
  end.

Definition occurrences (a : Action) (t : list Action) : nat :=
  length (filter (is_action a) t).

(** ** Successive gyro queries *)

Section Queries.
Context {B : Type} `{BMI160 B}.

(** The inertial sensor after [n] calls of [gyro_integrated_get]. *)
Fixpoint bmi_after (n : nat) (b : B) : B :=
  match n with
  | O => b
  | S n' => bmi_after n' (fst (gyro_integrated_get b))
  end.
End Queries.

(** The timestamps the specification promises for raw microsecond counts
    [raws]: 0 for the first, the distance to the first for the others.
    (Follows the spec's words; it is compared with [rebased_sequence].) *)
Definition spec_rebased (raws : list Z) : list Z :=
  match raws with
  | [] => []
  | r0 :: rest => 0 :: map (fun r => r - r0) rest
  end.

Fixpoint nondecreasing (l : list Z) : Prop :=
  match l with
  | a :: (b :: _) as rest => a <= b /\ nondecreasing rest
  | _ => True
  end.

(** * Properties *)

(** ** Arithmetic of the 32-bit timestamps *)

Lemma to_uint32_range v : 0 <= to_uint32 v < 2 ^ 32.
Proof. unfold to_uint32. apply Z.mod_pos_bound. reflexivity. Qed.

Lemma raw_img_time_us_mod timestamp :
  raw_img_time_us timestamp = usec_of timestamp mod 2 ^ 32.
Proof.
  unfold raw_img_time_us, timestamp_usec, to_uint32, to_uint64, usec_of.
  apply Z.mod_mod_divide. exists (2 ^ 32). reflexivity.
Qed.

Lemma to_uint32_sub_raw t1 t0 :
  to_uint32 (raw_img_time_us t1 - raw_img_time_us t0)
  = (usec_of t1 - usec_of t0) mod 2 ^ 32.
Proof.
  rewrite !raw_img_time_us_mod. unfold to_uint32.
  symmetry. apply Zminus_mod.
Qed.

Lemma rebase_unset raw : rebase 0 raw = (raw, 0).
Proof. reflexivity. Qed.

Lemma rebase_set initial raw :
  initial <> 0 -> rebase initial raw = (initial, to_uint32 (raw - initial)).
Proof.
  intros Hne. unfold rebase.
  destruct (Z.eqb_spec initial 0) as [Heq | _]; [contradiction | reflexivity].
Qed.

Lemma timespec_eqb_true a b :
  Timespec.eqb a b = true <->
  Timespec.tv_sec a = Timespec.tv_sec b /\ Timespec.tv_nsec a = Timespec.tv_nsec b.
Proof.
  unfold Timespec.eqb. rewrite andb_true_iff, !Z.eqb_eq. reflexivity.
Qed.

Lemma timespec_ltb_neq a b : Timespec.ltb a b = true -> Timespec.eqb a b = false.
Proof.
  unfold Timespec.ltb, Timespec.eqb. intros Hlt.
  apply orb_true_iff in Hlt. destruct Hlt as [Hs | Hn].
  - apply Z.ltb_lt in Hs.
    destruct (Z.eqb_spec (Timespec.tv_sec a) (Timespec.tv_sec b)); [lia | reflexivity].
  - apply andb_true_iff in Hn. destruct Hn as [_ Hn]. apply Z.ltb_lt in Hn.
    destruct (Z.eqb_spec (Timespec.tv_nsec a) (Timespec.tv_nsec b)); [lia |].
    apply andb_false_r.
Qed.

(** ** One invocation of the callback, branch by branch *)

Section OneFrame.
Context {E B : Type} `{OpticalFlowOpenCV E} `{BMI160 B}.
Variables (s : Mainloop E B) (img : image) (len : Z) (timestamp : Timeval.t).

Let f := flow_call s img timestamp.
Let g := gyro_integrated_get (_bmi s).
Let t := rebase (_camera_initial_timestamp s) (raw_img_time_us timestamp).

(** The liveness check fails: lines 160-164. *)
Lemma callback_stale :
  Timespec.eqb (_gyro_last_timespec s) (snd (snd g)) = true ->
  camera_callback s img len timestamp
  = mkMainloop (_camera s) (fst f) (fst g) (_mavlink s) (fst t) (snd t)
               (_gyro_last_timespec s).
Proof.
  intros Hstale. unfold camera_callback. cbv zeta.
  fold g. rewrite Hstale. reflexivity.
Qed.

(** The quality gate fails: lines 172-174. *)
Lemma callback_not_ready :
  Timespec.eqb (_gyro_last_timespec s) (snd (snd g)) = false ->
  flow_quality (snd f) < 0 ->
  camera_callback s img len timestamp
  = mkMainloop (_camera s) (fst f) (fst g) (_mavlink s) (fst t) (snd t)
               (snd (snd g)).
Proof.
  intros Hfresh Hq. apply Z.ltb_lt in Hq.
  unfold camera_callback. cbv zeta. fold g. rewrite Hfresh.
  change (calcFlow (_optical_flow s) (cropped_data s img)
            (snd (rebase (_camera_initial_timestamp s) (raw_img_time_us timestamp))))
    with f.
  rewrite Hq. reflexivity.
Qed.

(** Both checks pass: lines 176-190. *)
Lemma callback_emits :
  Timespec.eqb (_gyro_last_timespec s) (snd (snd g)) = false ->
  0 <= flow_quality (snd f) ->
  camera_callback s img len timestamp
  = mkMainloop (_camera s) (fst f) (fst g)
      (optical_flow_rad_msg_write (_mavlink s)
         (build_msg timestamp (snd f) (fst (snd g))))
      (fst t) (snd t) (snd (snd g)).
Proof.
  intros Hfresh Hq. apply Z.ltb_ge in Hq.
  unfold camera_callback. cbv zeta. fold g. rewrite Hfresh.
  change (calcFlow (_optical_flow s) (cropped_data s img)
            (snd (rebase (_camera_initial_timestamp s) (raw_img_time_us timestamp))))
    with f.
  rewrite Hq. reflexivity.
Qed.

(** The three branches cover every invocation. *)
Lemma callback_cases :
  Timespec.eqb (_gyro_last_timespec s) (snd (snd g)) = true
  \/ (Timespec.eqb (_gyro_last_timespec s) (snd (snd g)) = false
      /\ flow_quality (snd f) < 0)
  \/ (Timespec.eqb (_gyro_last_timespec s) (snd (snd g)) = false
      /\ 0 <= flow_quality (snd f)).
Proof.
  destruct (Timespec.eqb (_gyro_last_timespec s) (snd (snd g))); [now left | right].
  destruct (Z.lt_ge_cases (flow_quality (snd f)) 0); [left | right]; now split.
Qed.

Lemma callback_initial_timestamp :
  _camera_initial_timestamp (camera_callback s img len timestamp) = fst t.
Proof.
  destruct callback_cases as [Hs | [[Hf Hq] | [Hf Hq]]].
  - rewrite (callback_stale Hs). reflexivity.
  - rewrite (callback_not_ready Hf Hq). reflexivity.
  - rewrite (callback_emits Hf Hq). reflexivity.
Qed.

Lemma callback_prev_timestamp :
  _camera_prev_timestamp (camera_callback s img len timestamp) = snd t.
Proof.
  destruct callback_cases as [Hs | [[Hf Hq] | [Hf Hq]]].
  - rewrite (callback_stale Hs). reflexivity.
  - rewrite (callback_not_ready Hf Hq). reflexivity.
  - rewrite (callback_emits Hf Hq). reflexivity.
Qed.
End OneFrame.

(** ** Suppression and emission (single frame) *)

Lemma skipn_length_app {A : Type} (l m : list A) : skipn (length l) (l ++ m) = m.
Proof. induction l as [| a l IH]; simpl; [reflexivity | exact IH]. Qed.

(** C4.  When the gyro sample's time equals the last one seen, in both the
    seconds and the nanoseconds field, the callback hands no message to the
    telemetry transport, whatever quality the estimator reports; the
    callback still returns a session state (it has no error result). *)
Theorem stale_gyro_emits_nothing
  {E B : Type} `{OpticalFlowOpenCV E} `{BMI160 B}
  (s : Mainloop E B) (img : image) (len : Z) (timestamp : Timeval.t) :
  let gyro_timespec := snd (snd (gyro_integrated_get (_bmi s))) in
  Timespec.tv_sec (_gyro_last_timespec s) = Timespec.tv_sec gyro_timespec ->
  Timespec.tv_nsec (_gyro_last_timespec s) = Timespec.tv_nsec gyro_timespec ->
  _mavlink (camera_callback s img len timestamp) = _mavlink s
  /\ emitted s (camera_callback s img len timestamp) = [].
Proof.
  intros gyro_timespec Hsec Hnsec.
  assert (Hstale : Timespec.eqb (_gyro_last_timespec s) gyro_timespec = true)
    by (apply timespec_eqb_true; now split).
  rewrite (callback_stale s img len timestamp Hstale).
  unfold emitted. simpl. split; [reflexivity | apply skipn_all].
Qed.

Lemma stale_gyro_emits_nothing_witness :
  let s := session [ready 200] [(Point3.mk 1%float 2%float 3%float, Timespec.mk 0 0)] in
  let s' := camera_callback s [] 0 (Timeval.mk 1 0) in
  flow_quality (snd (flow_call s [] (Timeval.mk 1 0))) = 200
  /\ _mavlink s' = _mavlink s /\ emitted s s' = [].
Proof.
  split; [reflexivity |].
  apply (stale_gyro_emits_nothing
           (session [ready 200] [(Point3.mk 1%float 2%float 3%float, Timespec.mk 0 0)]));
    reflexivity.
Defined.

(** C5.  When the estimator reports a negative quality, the callback hands
    no message to the telemetry transport, whether or not the gyro sample
    is a new one. *)
Theorem negative_quality_emits_nothing
  {E B : Type} `{OpticalFlowOpenCV E} `{BMI160 B}
  (s : Mainloop E B) (img : image) (len : Z) (timestamp : Timeval.t) :
  flow_quality (snd (flow_call s img timestamp)) < 0 ->
  _mavlink (camera_callback s img len timestamp) = _mavlink s
  /\ emitted s (camera_callback s img len timestamp) = [].
Proof.
  intros Hq.
  destruct (Timespec.eqb (_gyro_last_timespec s)
              (snd (snd (gyro_integrated_get (_bmi s))))) eqn:Hg.
  - rewrite (callback_stale s img len timestamp Hg).
    unfold emitted. simpl. split; [reflexivity | apply skipn_all].
  - rewrite (callback_not_ready s img len timestamp Hg Hq).
    unfold emitted. simpl. split; [reflexivity | apply skipn_all].
Qed.

Lemma negative_quality_emits_nothing_witness :
  let s := session [ready (-1)] [sample 7] in
  let s' := camera_callback s [] 0 (Timeval.mk 1 0) in
  Timespec.eqb (_gyro_last_timespec s) (snd (snd (gyro_integrated_get (_bmi s)))) = false
  /\ _mavlink s' = _mavlink s /\ emitted s s' = [].
Proof.
  split; [reflexivity |].
  apply (negative_quality_emits_nothing (session [ready (-1)] [sample 7])).
  vm_compute. reflexivity.
Defined.

(** C6 (as amended).  When the quality is not negative and the gyro
    sample's time differs from the last one seen, the callback hands
    exactly one message to the telemetry transport: its quality is the
    estimator's converted to [uint8_t] (reduced modulo 256: the quality
    itself up to 255), its three gyro fields are the sample's x, y and z
    converted from [double] to [float], its integrated x and y are the
    estimator's, its integration time is the estimator's [dt_us] converted
    to [uint32_t], and time_delta_distance_us = 0, distance = -1.0,
    temperature = 0, sensor_id = 0. *)
Theorem fresh_frame_emits_one_message
  {E B : Type} `{OpticalFlowOpenCV E} `{BMI160 B}
  (s : Mainloop E B) (img : image) (len : Z) (timestamp : Timeval.t) :
  let r := snd (flow_call s img timestamp) in
  let gyro_data := fst (snd (gyro_integrated_get (_bmi s))) in
  let gyro_timespec := snd (snd (gyro_integrated_get (_bmi s))) in
  0 <= flow_quality r ->
  ~ (Timespec.tv_sec (_gyro_last_timespec s) = Timespec.tv_sec gyro_timespec
     /\ Timespec.tv_nsec (_gyro_last_timespec s) = Timespec.tv_nsec gyro_timespec) ->
  exists msg,
    written (_mavlink (camera_callback s img len timestamp))
      = written (_mavlink s) ++ [msg]
    /\ emitted s (camera_callback s img len timestamp) = [msg]
    /\ quality msg = flow_quality r mod 2 ^ 8
    /\ (flow_quality r <= 255 -> quality msg = flow_quality r)
    /\ integrated_xgyro msg = double_to_float (Point3.x gyro_data)
    /\ integrated_ygyro msg = double_to_float (Point3.y gyro_data)
    /\ integrated_zgyro msg = double_to_float (Point3.z gyro_data)
    /\ integrated_x msg = flow_x_ang r
    /\ integrated_y msg = flow_y_ang r
    /\ integration_time_us msg = dt_us r mod 2 ^ 32
    /\ (0 <= dt_us r < 2 ^ 32 -> integration_time_us msg = dt_us r)
    /\ time_delta_distance_us msg = 0
    /\ distance msg = (-1.0)%float
    /\ temperature msg = 0
    /\ sensor_id msg = 0.
Proof.
  intros r gyro_data gyro_timespec Hq Hne.
  assert (Hfresh : Timespec.eqb (_gyro_last_timespec s) gyro_timespec = false).
  { destruct (Timespec.eqb (_gyro_last_timespec s) gyro_timespec) eqn:Heq; [| reflexivity].
    apply timespec_eqb_true in Heq. contradiction. }
  exists (build_msg timestamp r gyro_data).
  rewrite (callback_emits s img len timestamp Hfresh Hq).
  unfold emitted. cbn [_mavlink optical_flow_rad_msg_write written].
  split; [reflexivity |].
  split; [apply skipn_length_app |].
  cbn [build_msg quality integrated_xgyro integrated_ygyro integrated_zgyro
       integrated_x integrated_y integration_time_us time_delta_distance_us
       distance temperature sensor_id].
  unfold to_uint8, to_uint32.
  repeat split.
  - intros Hle. apply Z.mod_small. lia.
  - intros Hdt. apply Z.mod_small. exact Hdt.
Qed.

Lemma fresh_frame_emits_one_message_witness :
  let s := session [ready 200] [sample 7] in
  let s' := camera_callback s [] 0 (Timeval.mk 1 33000) in
  exists msg,
    written (_mavlink s') = written (_mavlink s) ++ [msg]
    /\ emitted s s' = [msg]
    /\ quality msg = 200
    /\ (200 <= 255 -> quality msg = 200)
    /\ integrated_xgyro msg = 0.125%float
    /\ integrated_ygyro msg = (-2)%float
    /\ integrated_zgyro msg = 4%float
    /\ integrated_x msg = 0.5%float
    /\ integrated_y msg = 0.25%float
    /\ integration_time_us msg = 33000
    /\ (0 <= 33000 < 2 ^ 32 -> integration_time_us msg = 33000)
    /\ time_delta_distance_us msg = 0
    /\ distance msg = (-1.0)%float
    /\ temperature msg = 0
    /\ sensor_id msg = 0.
Proof.
  assert (Hq : 0 <= 200) by lia.
  assert (Hne : ~ (0 = 7 /\ 0 = 500)) by lia.
  exact (fresh_frame_emits_one_message (session [ready 200] [sample 7]) [] 0
           (Timeval.mk 1 33000) Hq Hne).
Defined.

(** C6 (as stated) fails: for a frame with quality 300 and a gyro sample
    whose x is the double nearest to 0.1, both checks pass and the one
    message emitted has quality 44, not 300, and an x gyro field that is
    the single-precision value nearest to 0.1, not the sample's x. *)
Lemma message_fields_are_narrowed :
  let tenth := 0x1.999999999999ap-4%float in
  let s := session [mkFlow 300 33000 0.5%float 0.25%float]
                   [(Point3.mk tenth (-2)%float 4%float, Timespec.mk 7 500)] in
  let s' := camera_callback s [] 0 (Timeval.mk 1 33000) in
  flow_quality (snd (flow_call s [] (Timeval.mk 1 33000))) = 300
  /\ Point3.x (fst (snd (gyro_integrated_get (_bmi s)))) = tenth
  /\ map quality (emitted s s') = [44]
  /\ map quality (emitted s s') <> [300]
  /\ map integrated_xgyro (emitted s s') = [0x1.99999ap-4%float]
  /\ map integrated_xgyro (emitted s s') <> [tenth].
Proof.
  cbv zeta. repeat split; try reflexivity.
  - vm_compute. discriminate.
  - intros Heq.
    apply (f_equal (map Prim2SF)) in Heq. vm_compute in Heq. discriminate Heq.
Qed.

(** C8.  Every invocation leaves the frame's rebased timestamp in
    [_camera_prev_timestamp], also when the liveness check or the quality
    gate suppresses the output: 0 while the origin is unset, and otherwise
    the frame's 32-bit raw time minus the origin, modulo [2^32].  The two
    gates do not interfere: the estimator is called with that timestamp
    before either check, its state is what the call left in every branch,
    and the call depends on no gyro state; a stale sample leaves the last
    gyro time and the transport as they were; a negative quality leaves
    the last gyro time at the value the liveness check stored. *)
Theorem prev_timestamp_always_updated
  {E B : Type} `{OpticalFlowOpenCV E} `{BMI160 B}
  (s : Mainloop E B) (img : image) (len : Z) (timestamp : Timeval.t) :
  let s' := camera_callback s img len timestamp in
  let raw := (Timeval.tv_usec timestamp + Timeval.tv_sec timestamp * 1000000)
             mod 2 ^ 32 in
  let rebased := if _camera_initial_timestamp s =? 0 then 0
                 else (raw - _camera_initial_timestamp s) mod 2 ^ 32 in
  let f := calcFlow (_optical_flow s) (cropped_data s img) rebased in
  let g := gyro_integrated_get (_bmi s) in
  let stale := Timespec.eqb (_gyro_last_timespec s) (snd (snd g)) in
  _camera_prev_timestamp s' = rebased
  /\ rebased_time s timestamp = rebased
  /\ _optical_flow s' = fst f
  /\ _bmi s' = fst g
  /\ (stale = true ->
      _gyro_last_timespec s' = _gyro_last_timespec s /\ _mavlink s' = _mavlink s)
  /\ (stale = false -> _gyro_last_timespec s' = snd (snd g))
  /\ (stale = false -> flow_quality (snd f) < 0 -> _mavlink s' = _mavlink s)
  /\ (forall s2 : Mainloop E B,
        _camera s2 = _camera s ->
        _optical_flow s2 = _optical_flow s ->
        _camera_initial_timestamp s2 = _camera_initial_timestamp s ->
        flow_call s2 img timestamp = f).
Proof.
  intros s' raw rebased f g stale. subst s'.
  assert (Hreb : rebased_time s timestamp = rebased).
  { unfold rebased_time, rebase. rewrite raw_img_time_us_mod. subst rebased raw.
    unfold usec_of, USEC_PER_SEC, to_uint32.
    destruct (_camera_initial_timestamp s =? 0); reflexivity. }
  assert (Hcall : flow_call s img timestamp = f).
  { unfold flow_call. rewrite Hreb. reflexivity. }
  split; [rewrite callback_prev_timestamp; exact Hreb |].
  split; [exact Hreb |].
  assert (Hlast : forall s2 : Mainloop E B,
             _camera s2 = _camera s ->
             _optical_flow s2 = _optical_flow s ->
             _camera_initial_timestamp s2 = _camera_initial_timestamp s ->
             flow_call s2 img timestamp = f).
  { intros s2 Hc Ho Hi. rewrite <- Hcall.
    unfold flow_call, rebased_time, cropped_data, crop_rect.
    rewrite Hc, Ho, Hi. reflexivity. }
  pose proof (callback_cases s img timestamp) as Hcases. cbv zeta in Hcases.
  rewrite Hcall in Hcases.
  destruct Hcases as [Hs | [[Hf Hq] | [Hf Hq]]].
  - pose proof (callback_stale s img len timestamp Hs) as Hstep.
    cbv zeta in Hstep. rewrite Hcall in Hstep. rewrite Hstep. cbn.
    repeat split; try assumption; try reflexivity; subst stale g; intros; congruence.
  - assert (Hq' : flow_quality (snd (flow_call s img timestamp)) < 0)
      by (rewrite Hcall; exact Hq).
    pose proof (callback_not_ready s img len timestamp Hf Hq') as Hstep.
    cbv zeta in Hstep. rewrite Hcall in Hstep. rewrite Hstep. cbn.
    repeat split; try assumption; try reflexivity; subst stale g; intros; congruence.
  - assert (Hq' : 0 <= flow_quality (snd (flow_call s img timestamp)))
      by (rewrite Hcall; exact Hq).
    pose proof (callback_emits s img len timestamp Hf Hq') as Hstep.
    cbv zeta in Hstep. rewrite Hcall in Hstep. rewrite Hstep. cbn.
    repeat split; try assumption; try reflexivity; subst stale g; intros;
      try congruence; lia.
Qed.

(** The three branches of the callback are all taken by some input: the
    bookkeeping is updated in each. *)
Example prev_timestamp_in_each_branch :
  let stale := session [ready 200; ready 200] [sample 7; sample 7] in
  let gated := session [ready 200; ready (-1)] [sample 7; sample 8] in
  let sent := session [ready 200; ready 200] [sample 7; sample 8] in
  let frames := [frame 5 0; frame 5 40000] in
  rebased_sequence stale frames = [0; 40000]
  /\ rebased_sequence gated frames = [0; 40000]
  /\ rebased_sequence sent frames = [0; 40000]
  /\ length (written (_mavlink (deliver_all stale frames))) = 1%nat
  /\ length (written (_mavlink (deliver_all gated frames))) = 1%nat
  /\ length (written (_mavlink (deliver_all sent frames))) = 2%nat.
Proof. vm_compute. repeat split. Qed.

(** Two sessions whose origin is 1000000 and whose previous frame time is
    7: one with a recording estimator and a sensor that repeats the last
    seen time 9 s + 9 ns, one with an estimator that is not ready and a
    new sample.  The frame captured at sec=1/usec=33000 leaves 33000 in
    [_camera_prev_timestamp] in both, and the recording estimator was
    given 33000; a frame captured before the origin leaves the wrapped
    difference. *)
Lemma prev_timestamp_always_updated_witness :
  let stale : Mainloop RecordingFlow ScriptedGyro :=
    mkMainloop (mkCamera 640 480) (mkRecordingFlow [])
      (mkScriptedGyro [(Point3.mk 1%float 2%float 3%float, Timespec.mk 9 9)])
      (mkMavlink []) 1000000 7 (Timespec.mk 9 9) in
  let gated : Mainloop ScriptedFlow ScriptedGyro :=
    mkMainloop (mkCamera 640 480) (mkScriptedFlow [ready (-1)])
      (mkScriptedGyro [sample 7]) (mkMavlink []) 1000000 7 (Timespec.mk 9 9) in
  let timestamp := Timeval.mk 1 33000 in
  (_camera_prev_timestamp stale = 7
   /\ _camera_prev_timestamp (camera_callback stale [] 0 timestamp) = 33000
   /\ _optical_flow (camera_callback stale [] 0 timestamp)
      = mkRecordingFlow [(133408, 33000)]
   /\ _gyro_last_timespec (camera_callback stale [] 0 timestamp) = Timespec.mk 9 9
   /\ _mavlink (camera_callback stale [] 0 timestamp) = _mavlink stale)
  /\ (_camera_prev_timestamp (camera_callback gated [] 0 timestamp) = 33000
      /\ _gyro_last_timespec (camera_callback gated [] 0 timestamp) = Timespec.mk 7 500
      /\ _mavlink (camera_callback gated [] 0 timestamp) = _mavlink gated)
  /\ _camera_prev_timestamp (camera_callback gated [] 0 (Timeval.mk 0 999000))
     = 4294966296.
Proof.
  pose proof (prev_timestamp_always_updated
                (mkMainloop (mkCamera 640 480) (mkRecordingFlow [])
                   (mkScriptedGyro
                      [(Point3.mk 1%float 2%float 3%float, Timespec.mk 9 9)])
                   (mkMavlink []) 1000000 7 (Timespec.mk 9 9))
                [] 0 (Timeval.mk 1 33000)) as Hstale.
  pose proof (prev_timestamp_always_updated
                (mkMainloop (mkCamera 640 480) (mkScriptedFlow [ready (-1)])
                   (mkScriptedGyro [sample 7]) (mkMavlink []) 1000000 7
                   (Timespec.mk 9 9))
                [] 0 (Timeval.mk 1 33000)) as Hgated.
  pose proof (prev_timestamp_always_updated
                (mkMainloop (mkCamera 640 480) (mkScriptedFlow [ready (-1)])
                   (mkScriptedGyro [sample 7]) (mkMavlink []) 1000000 7
                   (Timespec.mk 9 9))
                [] 0 (Timeval.mk 0 999000)) as Hearly.
  cbv zeta in Hstale, Hgated, Hearly.
  destruct Hstale as [Hprev [_ [Hflow [_ [Hkeep _]]]]].
  destruct Hgated as [Hprev' [_ [_ [_ [_ [Hlast [Hquiet _]]]]]]].
  destruct Hearly as [Hprev'' _].
  split; [| split].
  - split; [reflexivity |]. split; [exact Hprev |]. split; [exact Hflow |].
    exact (Hkeep eq_refl).
  - split; [exact Hprev' |]. split; [exact (Hlast eq_refl) |].
    exact (Hquiet eq_refl eq_refl).
  - exact Hprev''.
Defined.

(** ** Sequences of frames: the rebased time axis *)

Section Sequences.
Context {E B : Type} `{OpticalFlowOpenCV E} `{BMI160 B}.

(** Once the origin is set it stays, and every frame is measured from it
    modulo [2^32]. *)
Lemma deliver_origin_set (origin : Z) (frames : list Frame) :
  origin <> 0 ->
  forall s : Mainloop E B,
    _camera_initial_timestamp s = origin ->
    rebased_sequence s frames
    = map (fun f => to_uint32 (raw_img_time_us (f_time f) - origin)) frames
    /\ map _camera_initial_timestamp (deliver s frames)
       = repeat origin (length frames).
Proof.
  intros Hne. unfold rebased_sequence.
  induction frames as [| f rest IH]; intros s Hs; simpl; [now split |].
  destruct (IH (camera_callback s (f_img f) (f_len f) (f_time f))) as [IHp IHi].
  { rewrite callback_initial_timestamp, Hs, (rebase_set _ _ Hne). reflexivity. }
  rewrite IHp, IHi, callback_prev_timestamp, callback_initial_timestamp.
  rewrite Hs, (rebase_set _ _ Hne). simpl. now split.
Qed.

(** Leading frames whose 32-bit raw time is 0 leave the origin unset; the
    first other frame sets it. *)
Lemma deliver_leading_zeros (zeros : list Frame) (f : Frame) (rest : list Frame) :
  Forall (fun z => raw_img_time_us (f_time z) = 0) zeros ->
  raw_img_time_us (f_time f) <> 0 ->
  forall s : Mainloop E B,
    _camera_initial_timestamp s = 0 ->
    rebased_sequence s (zeros ++ f :: rest)
    = repeat 0 (length zeros)
      ++ 0 :: map (fun g => to_uint32 (raw_img_time_us (f_time g)
                                       - raw_img_time_us (f_time f))) rest
    /\ map _camera_initial_timestamp (deliver s (zeros ++ f :: rest))
       = repeat 0 (length zeros)
         ++ repeat (raw_img_time_us (f_time f)) (S (length rest)).
Proof.
  intros Hzeros Hf. unfold rebased_sequence.
  induction Hzeros as [| z zeros Hz _ IH]; intros s Hs; simpl.
  - set (s1 := camera_callback s (f_img f) (f_len f) (f_time f)).
    assert (Hs1 : _camera_initial_timestamp s1 = raw_img_time_us (f_time f)).
    { unfold s1. rewrite callback_initial_timestamp, Hs. reflexivity. }
    destruct (deliver_origin_set _ rest Hf s1 Hs1) as [Hp Hi].
    unfold rebased_sequence in Hp. rewrite Hp, Hi, Hs1.
    unfold s1. rewrite callback_prev_timestamp, Hs. now split.
  - set (s1 := camera_callback s (f_img z) (f_len z) (f_time z)).
    assert (Hs1 : _camera_initial_timestamp s1 = 0).
    { unfold s1. rewrite callback_initial_timestamp, Hs, Hz. reflexivity. }
    destruct (IH s1 Hs1) as [Hp Hi]. rewrite Hp, Hi, Hs1.
    unfold s1. rewrite callback_prev_timestamp, Hs. now split.
Qed.
End Sequences.

Lemma nondecreasing_shift (c : Z) (l : list Z) :
  nondecreasing l -> nondecreasing (map (fun r => r - c) l).
Proof.
  induction l as [| a [| b rest] IH]; simpl; try exact (fun _ => I).
  intros [Hab Hrest]. split; [lia | exact (IH Hrest)].
Qed.

(** C3 (as amended).  For frames delivered to a session whose origin is not
    yet set, the first of them having a raw microsecond count that is not 0
    modulo [2^32]: the first rebased timestamp is 0 and every later one is
    its raw count minus the first raw count, modulo [2^32]; when all raw
    counts lie less than [2^32] microseconds after the first, the rebased
    timestamps are exactly the differences, and they are non-decreasing
    when the raw counts are. *)
Theorem rebased_sequence_modulo
  {E B : Type} `{OpticalFlowOpenCV E} `{BMI160 B}
  (s : Mainloop E B) (f0 : Frame) (rest : list Frame) :
  _camera_initial_timestamp s = 0 ->
  raw_img_time_us (f_time f0) <> 0 ->
  let raw f := usec_of (f_time f) in
  rebased_sequence s (f0 :: rest)
  = 0 :: map (fun f => (raw f - raw f0) mod 2 ^ 32) rest
  /\ ((forall f, In f rest -> raw f0 <= raw f < raw f0 + 2 ^ 32) ->
      rebased_sequence s (f0 :: rest) = spec_rebased (map raw (f0 :: rest))
      /\ (nondecreasing (map raw (f0 :: rest)) ->
          nondecreasing (rebased_sequence s (f0 :: rest)))).
Proof.
  intros Hs Hf0 raw.
  destruct (deliver_leading_zeros [] f0 rest (Forall_nil _) Hf0 s Hs) as [Hp _].
  simpl app in Hp. simpl repeat in Hp.
  assert (Hmod : rebased_sequence s (f0 :: rest)
                 = 0 :: map (fun f => (raw f - raw f0) mod 2 ^ 32) rest).
  { rewrite Hp. simpl. f_equal. apply map_ext. intros g.
    apply to_uint32_sub_raw. }
  split; [exact Hmod |].
  intros Hnear.
  assert (Hexact : rebased_sequence s (f0 :: rest) = spec_rebased (map raw (f0 :: rest))).
  { rewrite Hmod. simpl. f_equal. rewrite map_map. apply map_ext_in.
    intros g Hg. apply Z.mod_small. specialize (Hnear g Hg). lia. }
  split; [exact Hexact |].
  intros Hsorted. rewrite Hexact. simpl spec_rebased.
  replace 0 with (raw f0 - raw f0) by lia.
  change (nondecreasing (map (fun r => r - raw f0) (map raw (f0 :: rest)))).
  apply nondecreasing_shift. exact Hsorted.
Qed.

Lemma rebased_sequence_modulo_witness :
  let s := session [] [] in
  let frames := [frame 1 33000; frame 1 66000] in
  rebased_sequence s (frame 1 0 :: frames) = [0; 33000; 66000]
  /\ nondecreasing (rebased_sequence s (frame 1 0 :: frames)).
Proof.
  assert (Hs : _camera_initial_timestamp (session [] []) = 0) by reflexivity.
  assert (Hf0 : raw_img_time_us (f_time (frame 1 0)) <> 0) by (vm_compute; discriminate).
  pose proof (rebased_sequence_modulo (session [] []) (frame 1 0)
                [frame 1 33000; frame 1 66000] Hs Hf0) as [Hmod Hnear].
  split; [exact Hmod |].
  apply Hnear.
  - intros f [Hf | [Hf | []]]; subst f; vm_compute; split;
      (discriminate || reflexivity).
  - vm_compute. repeat split; discriminate.
Defined.

(** C3 (as stated) fails: three frames with non-decreasing raw times, about
    71.6 minutes apart, whose rebased timestamps are 0, 4294967294, 0:
    neither the differences from the first raw time nor non-decreasing. *)
Lemma rebased_sequence_wraps :
  let s := session [] [] in
  let frames := [frame 0 1; frame 4294 967295; frame 4294 967297] in
  let raws := map (fun f => usec_of (f_time f)) frames in
  nondecreasing raws
  /\ rebased_sequence s frames = [0; 4294967294; 0]
  /\ spec_rebased raws = [0; 4294967294; 4294967296]
  /\ rebased_sequence s frames <> spec_rebased raws
  /\ ~ nondecreasing (rebased_sequence s frames).
Proof.
  cbv zeta. split; [| split; [| split; [| split]]].
  - vm_compute. repeat split; discriminate.
  - vm_compute. reflexivity.
  - vm_compute. reflexivity.
  - vm_compute. discriminate.
  - vm_compute. intros [_ [Hle _]]. apply Hle. reflexivity.
Qed.

(** C9.  Starting with the origin unset, every leading frame whose 32-bit
    raw time is 0 gets the rebased timestamp 0 and leaves the origin unset;
    the first frame whose raw time is not 0 also gets 0 and sets the origin
    to its raw time, from which all later frames are measured. *)
Theorem origin_is_first_nonzero_raw_time
  {E B : Type} `{OpticalFlowOpenCV E} `{BMI160 B}
  (s : Mainloop E B) (zeros : list Frame) (f : Frame) (rest : list Frame) :
  _camera_initial_timestamp s = 0 ->
  Forall (fun z => raw_img_time_us (f_time z) = 0) zeros ->
  raw_img_time_us (f_time f) <> 0 ->
  rebased_sequence s (zeros ++ f :: rest)
  = repeat 0 (length zeros)
    ++ 0 :: map (fun g => to_uint32 (raw_img_time_us (f_time g)
                                     - raw_img_time_us (f_time f))) rest
  /\ map _camera_initial_timestamp (deliver s (zeros ++ f :: rest))
     = repeat 0 (length zeros) ++ repeat (raw_img_time_us (f_time f)) (S (length rest)).
Proof.
  intros Hs Hzeros Hf. exact (deliver_leading_zeros zeros f rest Hzeros Hf s Hs).
Qed.

Lemma origin_is_first_nonzero_raw_time_witness :
  let s := session [] [] in
  rebased_sequence s ([frame 0 0; frame 4294 967296] ++ frame 4295 0 :: [frame 4295 250])
  = [0; 0; 0; 250]
  /\ map _camera_initial_timestamp
       (deliver s ([frame 0 0; frame 4294 967296] ++ frame 4295 0 :: [frame 4295 250]))
     = [0; 0; 32704; 32704].
Proof.
  assert (Hs : _camera_initial_timestamp (session [] []) = 0) by reflexivity.
  assert (Hz : Forall (fun z => raw_img_time_us (f_time z) = 0)
                 [frame 0 0; frame 4294 967296])
    by (repeat constructor).
  assert (Hf : raw_img_time_us (f_time (frame 4295 0)) <> 0) by (vm_compute; discriminate).
  exact (origin_is_first_nonzero_raw_time (session [] []) _ _ [frame 4295 250] Hs Hz Hf).
Defined.

(** C10 (as amended).  The arithmetic on [img_time_us] (lines 131-144) is
    unsigned 32-bit: the raw time is [tv_usec + tv_sec * 1000000] modulo
    [2^32], and the rebased time is 0 or the difference from the stored
    origin modulo [2^32].  So two frame times a multiple of [2^32]
    microseconds apart give the same raw time and leave the same
    timestamps, estimator state and gyro state behind, and the same
    messages but for their time_usec, which line 177 computes from the
    timeval in 64 bits; and the rebased times of strictly increasing raw
    times can fall back (here from 4294967294 to 0). *)
Theorem frame_times_are_uint32 :
  (forall timestamp,
      raw_img_time_us timestamp
      = (Timeval.tv_usec timestamp + Timeval.tv_sec timestamp * 1000000) mod 2 ^ 32)
  /\ (forall (E B : Type) (FE : OpticalFlowOpenCV E) (FB : BMI160 B)
             (s : Mainloop E B) timestamp,
         0 <= rebased_time s timestamp < 2 ^ 32
         /\ rebased_time s timestamp
            = if _camera_initial_timestamp s =? 0 then 0
              else (raw_img_time_us timestamp - _camera_initial_timestamp s) mod 2 ^ 32)
  /\ (forall t1 t2 k,
         usec_of t1 = usec_of t2 + k * 2 ^ 32 ->
         raw_img_time_us t1 = raw_img_time_us t2
         /\ forall (E B : Type) (FE : OpticalFlowOpenCV E) (FB : BMI160 B)
                   (s : Mainloop E B) img len,
              let s1 := camera_callback s img len t1 in
              let s2 := camera_callback s img len t2 in
              _camera_initial_timestamp s1 = _camera_initial_timestamp s2
              /\ _camera_prev_timestamp s1 = _camera_prev_timestamp s2
              /\ _optical_flow s1 = _optical_flow s2
              /\ _bmi s1 = _bmi s2
              /\ _gyro_last_timespec s1 = _gyro_last_timespec s2
              /\ length (written (_mavlink s1)) = length (written (_mavlink s2))
              /\ map (with_time_usec 0) (written (_mavlink s1))
                 = map (with_time_usec 0) (written (_mavlink s2))
              /\ (forall m, In m (emitted s s1) -> time_usec m = timestamp_usec t1)
              /\ (forall m, In m (emitted s s2) -> time_usec m = timestamp_usec t2))
  /\ (let frames := [frame 0 1; frame 4294 967295; frame 4294 967297] in
      map (fun f => usec_of (f_time f)) frames = [1; 4294967295; 4294967297]
      /\ rebased_sequence (session [] []) frames = [0; 4294967294; 0]).
Proof.
  split; [| split; [| split]].
  - intros timestamp. apply raw_img_time_us_mod.
  - intros E B FE FB s timestamp. unfold rebased_time, rebase.
    destruct (Z.eqb_spec (_camera_initial_timestamp s) 0) as [Hz | Hnz]; simpl.
    + split; [lia | reflexivity].
    + split; [apply to_uint32_range | reflexivity].
  - intros t1 t2 k Hk.
    assert (Hraw : raw_img_time_us t1 = raw_img_time_us t2).
    { rewrite !raw_img_time_us_mod, Hk. apply Z.mod_add. discriminate. }
    split; [exact Hraw |].
    intros E B FE FB s img len. unfold camera_callback, emitted. cbv zeta. rewrite Hraw.
    destruct (Timespec.eqb (_gyro_last_timespec s)
                (snd (snd (gyro_integrated_get (_bmi s)))));
      cbn [_camera_initial_timestamp _camera_prev_timestamp _optical_flow _bmi
           _gyro_last_timespec _mavlink].
    + rewrite skipn_all. repeat split; intros m [].
    + destruct (flow_quality _ <? 0);
        cbn [_camera_initial_timestamp _camera_prev_timestamp _optical_flow _bmi
             _gyro_last_timespec _mavlink optical_flow_rad_msg_write written].
      * rewrite skipn_all. repeat split; intros m [].
      * rewrite !skipn_length_app, !length_app, !map_app.
        repeat split; intros m [Hm | []]; subst m; reflexivity.
  - vm_compute. split; reflexivity.
Qed.

Lemma frame_times_are_uint32_witness :
  let s := session [ready 0] [sample 1] in
  let t1 := Timeval.mk 4294 967297 in
  let t2 := Timeval.mk 0 1 in
  usec_of t1 = usec_of t2 + 1 * 2 ^ 32
  /\ raw_img_time_us t1 = raw_img_time_us t2
  /\ _optical_flow (camera_callback s [] 0 t1) = _optical_flow (camera_callback s [] 0 t2)
  /\ map (with_time_usec 0) (written (_mavlink (camera_callback s [] 0 t1)))
     = map (with_time_usec 0) (written (_mavlink (camera_callback s [] 0 t2)))
  /\ length (written (_mavlink (camera_callback s [] 0 t1))) = 1%nat
  /\ rebased_sequence (session [] []) [frame 0 1; frame 4294 967295; frame 4294 967297]
     = [0; 4294967294; 0].
Proof.
  destruct frame_times_are_uint32 as [_ [_ [Hsame Hwrap]]].
  destruct (Hsame (Timeval.mk 4294 967297) (Timeval.mk 0 1) 1 eq_refl) as [Hraw Hstate].
  specialize (Hstate ScriptedFlow ScriptedGyro _ _ (session [ready 0] [sample 1]) [] 0).
  cbv zeta in Hstate.
  destruct Hstate as [_ [_ [Hflow [_ [_ [_ [Hmsgs _]]]]]]].
  split; [reflexivity |]. split; [exact Hraw |]. split; [exact Hflow |].
  split; [exact Hmsgs |]. split; [reflexivity |].
  exact (proj2 Hwrap).
Defined.

(** C10 (as stated) fails: not all the frame-time arithmetic is 32-bit.
    Two frame times [2^32] microseconds apart have the same 32-bit raw
    time, but the messages emitted for them differ: time_usec is 1 for
    one and 4294967297 for the other. *)
Lemma frame_times_apart_are_told_apart :
  let s := session [ready 0] [sample 1] in
  let t1 := Timeval.mk 0 1 in
  let t2 := Timeval.mk 4294 967297 in
  usec_of t2 = usec_of t1 + 2 ^ 32
  /\ raw_img_time_us t1 = raw_img_time_us t2
  /\ map time_usec (written (_mavlink (camera_callback s [] 0 t1))) = [1]
  /\ map time_usec (written (_mavlink (camera_callback s [] 0 t2))) = [4294967297]
  /\ camera_callback s [] 0 t1 <> camera_callback s [] 0 t2.
Proof.
  cbv zeta. repeat split; try reflexivity.
  intros Heq.
  apply (f_equal (fun st => map time_usec (written (_mavlink st)))) in Heq.
  vm_compute in Heq. discriminate Heq.
Qed.

(** ** The scenario of three frames *)

Section ThreeFrames.
Context {E B : Type} `{OpticalFlowOpenCV E} `{BMI160 B}.

Hypothesis quality_zero :
  forall (e : E) p t, flow_quality (snd (calcFlow e p t)) = 0.
Hypothesis gyro_increasing :
  forall b : B, Timespec.ltb (gyro_stamp b) (gyro_stamp (fst (gyro_integrated_get b))) = true.

(** With such collaborators every frame passes both checks, and the
    sample after it is again a later one. *)
Lemma steady_step (s : Mainloop E B) img len timestamp :
  Timespec.ltb (_gyro_last_timespec s) (gyro_stamp (_bmi s)) = true ->
  let s' := camera_callback s img len timestamp in
  let t := rebase (_camera_initial_timestamp s) (raw_img_time_us timestamp) in
  (exists msg, written (_mavlink s') = written (_mavlink s) ++ [msg]
               /\ time_usec msg = timestamp_usec timestamp)
  /\ _camera_initial_timestamp s' = fst t
  /\ _camera_prev_timestamp s' = snd t
  /\ _optical_flow s' = fst (calcFlow (_optical_flow s) (cropped_data s img) (snd t))
  /\ Timespec.ltb (_gyro_last_timespec s') (gyro_stamp (_bmi s')) = true.
Proof.
  intros Hlt s' t. subst s'.
  pose proof (timespec_ltb_neq _ _ Hlt) as Hfresh.
  assert (Hq : 0 <= flow_quality (snd (flow_call s img timestamp)))
    by (unfold flow_call; rewrite quality_zero; lia).
  rewrite (callback_emits s img len timestamp Hfresh Hq). simpl.
  split; [eexists; split; reflexivity |].
  repeat split. apply gyro_increasing.
Qed.
End ThreeFrames.

(** C1 (as amended).  For frames captured at sec=1/usec=0, sec=1/usec=33000
    and sec=1/usec=66000, delivered to a session whose origin is not yet
    set, with an estimator that always reports quality 0 and gyro sample
    times that strictly increase from the last one seen: the rebased
    timestamps are 0, 33000, 66000, they are what [_camera_prev_timestamp]
    holds and what [calcFlow] is called with, exactly three messages are
    emitted, and their time_usec fields are the raw times 1000000,
    1033000, 1066000. *)
Theorem three_frames_carry_raw_time
  {E B : Type} `{OpticalFlowOpenCV E} `{BMI160 B}
  (s : Mainloop E B) (img1 img2 img3 : image) (len1 len2 len3 : Z) :
  let frames := [mkFrame img1 len1 (Timeval.mk 1 0);
                 mkFrame img2 len2 (Timeval.mk 1 33000);
                 mkFrame img3 len3 (Timeval.mk 1 66000)] in
  let s1 := camera_callback s img1 len1 (Timeval.mk 1 0) in
  let s2 := camera_callback s1 img2 len2 (Timeval.mk 1 33000) in
  let s3 := camera_callback s2 img3 len3 (Timeval.mk 1 66000) in
  _camera_initial_timestamp s = 0 ->
  (forall (e : E) p t, flow_quality (snd (calcFlow e p t)) = 0) ->
  Timespec.ltb (_gyro_last_timespec s) (gyro_stamp (_bmi s)) = true ->
  (forall b : B,
      Timespec.ltb (gyro_stamp b) (gyro_stamp (fst (gyro_integrated_get b))) = true) ->
  rebased_sequence s frames = [0; 33000; 66000]
  /\ deliver_all s frames = s3
  /\ _optical_flow s1 = fst (calcFlow (_optical_flow s) (cropped_data s img1) 0)
  /\ _optical_flow s2 = fst (calcFlow (_optical_flow s1) (cropped_data s1 img2) 33000)
  /\ _optical_flow s3 = fst (calcFlow (_optical_flow s2) (cropped_data s2 img3) 66000)
  /\ exists m1 m2 m3,
       written (_mavlink (deliver_all s frames)) = written (_mavlink s) ++ [m1; m2; m3]
       /\ emitted s (deliver_all s frames) = [m1; m2; m3]
       /\ map time_usec [m1; m2; m3] = [1000000; 1033000; 1066000].
Proof.
  intros frames s1 s2 s3 Hs Hq Hlast Hgyro. subst frames.
  unfold rebased_sequence, deliver_all. simpl.
  fold s1. fold s2. fold s3.
  destruct (steady_step Hq Hgyro s img1 len1 (Timeval.mk 1 0) Hlast)
    as [[m1 [Hw1 Ht1]] [Hi1 [Hp1 [Hf1 Hl1]]]].
  fold s1 in Hw1, Hi1, Hp1, Hf1, Hl1. rewrite Hs in Hi1, Hp1, Hf1.
  destruct (steady_step Hq Hgyro s1 img2 len2 (Timeval.mk 1 33000) Hl1)
    as [[m2 [Hw2 Ht2]] [Hi2 [Hp2 [Hf2 Hl2]]]].
  fold s2 in Hw2, Hi2, Hp2, Hf2, Hl2. rewrite Hi1 in Hi2, Hp2, Hf2.
  destruct (steady_step Hq Hgyro s2 img3 len3 (Timeval.mk 1 66000) Hl2)
    as [[m3 [Hw3 Ht3]] [_ [Hp3 [Hf3 _]]]].
  fold s3 in Hw3, Hp3, Hf3. rewrite Hi2 in Hp3, Hf3.
  split; [rewrite Hp1, Hp2, Hp3; reflexivity |].
  split; [reflexivity |].
  split; [exact Hf1 |]. split; [exact Hf2 |]. split; [exact Hf3 |].
  exists m1, m2, m3.
  assert (Hw : written (_mavlink s3) = written (_mavlink s) ++ [m1; m2; m3]).
  { rewrite Hw3, Hw2, Hw1, <- !app_assoc. reflexivity. }
  split; [exact Hw |]. split.
  - unfold emitted. rewrite Hw. apply skipn_length_app.
  - simpl. rewrite Ht1, Ht2, Ht3. reflexivity.
Qed.

Lemma three_frames_carry_raw_time_witness :
  let s := recording_session in
  let frames := [frame 1 0; frame 1 33000; frame 1 66000] in
  rebased_sequence s frames = [0; 33000; 66000]
  /\ _optical_flow (deliver_all s frames)
     = mkRecordingFlow [(133408, 0); (133408, 33000); (133408, 66000)]
  /\ exists m1 m2 m3,
       written (_mavlink (deliver_all s frames)) = written (_mavlink s) ++ [m1; m2; m3]
       /\ emitted s (deliver_all s frames) = [m1; m2; m3]
       /\ map time_usec [m1; m2; m3] = [1000000; 1033000; 1066000].
Proof.
  assert (Hs : _camera_initial_timestamp recording_session = 0) by reflexivity.
  assert (Hq : forall (e : RecordingFlow) p t, flow_quality (snd (calcFlow e p t)) = 0)
    by reflexivity.
  assert (Hlast : Timespec.ltb (_gyro_last_timespec recording_session)
                    (gyro_stamp (_bmi recording_session)) = true) by reflexivity.
  assert (Hgyro : forall b : SteadyGyro,
             Timespec.ltb (gyro_stamp b) (gyro_stamp (fst (gyro_integrated_get b))) = true).
  { intros b. unfold gyro_stamp, Timespec.ltb. simpl.
    apply orb_true_iff. left. apply Z.ltb_lt. lia. }
  pose proof (three_frames_carry_raw_time recording_session [] [] [] 0 0 0
                Hs Hq Hlast Hgyro) as Hrun.
  cbv zeta in Hrun.
  destruct Hrun as [Hreb [Hall [_ [_ [Hf3 Hmsgs]]]]].
  split; [exact Hreb |].
  split; [| exact Hmsgs].
  change (deliver_all recording_session [frame 1 0; frame 1 33000; frame 1 66000])
    with (deliver_all recording_session
            [mkFrame [] 0 (Timeval.mk 1 0); mkFrame [] 0 (Timeval.mk 1 33000);
             mkFrame [] 0 (Timeval.mk 1 66000)]).
  rewrite Hall, Hf3. reflexivity.
Defined.

(** C1 (as stated) fails: with quality always 0 and gyro times 1 s, 2 s,
    3 s, the three messages carry the raw times in time_usec, not the
    rebased times 0, 33000, 66000 that the estimator was given. *)
Lemma three_frames_time_usec_not_rebased :
  let s := session [ready 0; ready 0; ready 0] [sample 1; sample 2; sample 3] in
  let frames := [frame 1 0; frame 1 33000; frame 1 66000] in
  rebased_sequence s frames = [0; 33000; 66000]
  /\ length (written (_mavlink (deliver_all s frames))) = 3%nat
  /\ map time_usec (written (_mavlink (deliver_all s frames)))
     = [1000000; 1033000; 1066000]
  /\ map time_usec (written (_mavlink (deliver_all s frames))) <> [0; 33000; 66000].
Proof.
  vm_compute. repeat split. discriminate.
Qed.

(** ** The event loop: which descriptors a wake-up reaches *)

(** The outer [for] counts [ret] down once per descriptor, ready or not, so
    a wake-up reaches the first [ret] descriptors of the array. *)
Lemma dispatch_reaches_prefix (fds : Fds) (desc : list pollfd) :
  forall ret, 0 <= ret ->
    dispatch fds ret desc
    = flat_map (fun d => dispatch_desc fds d pollables) (firstn (Z.to_nat ret) desc).
Proof.
  induction desc as [| d rest IH]; intros ret Hret; simpl.
  - rewrite firstn_nil. reflexivity.
  - destruct (Z.eqb_spec ret 0) as [Hz | Hnz]; simpl.
    + subst ret. reflexivity.
    + replace (Z.to_nat ret) with (S (Z.to_nat (ret - 1))) by lia.
      simpl. rewrite IH by lia. reflexivity.
Qed.

(** When every descriptor is ready, they are all dispatched, in the order
    camera, inertial sensor, telemetry transport. *)
Example all_ready_dispatch_order :
  let fds := mkFds 3 4 5 in
  let r := mkPoll 3 [POLLIN; POLLIN; POLLIN] in
  poll_ret r = ready_count (poll_revents r)
  /\ loop_iteration fds r
     = [handle_read SrcCamera; handle_read SrcBmi; handle_read SrcMavlink].
Proof. vm_compute. split; reflexivity. Qed.

(** C2.  The code at a wake-up where only the inertial sensor is ready
    ([poll] returns 1, [revents] = 0, POLLIN, 0): the loop looks at the
    camera's descriptor, counts [ret] down to 0 and stops, so no handler is
    invoked, where the claim has the inertial sensor's read handler
    invoked.  Likewise with the camera and the transport ready, only the
    camera is dispatched. *)
Theorem lone_inertial_wakeup_not_dispatched :
  let fds := mkFds 3 4 5 in
  let r1 := mkPoll 1 [0; POLLIN; 0] in
  let r2 := mkPoll 2 [POLLIN; 0; POLLIN] in
  (poll_ret r1 = ready_count (poll_revents r1)
   /\ loop_iteration fds r1 = []
   /\ spec_dispatch_all fds r1 = [handle_read SrcBmi])
  /\ (poll_ret r2 = ready_count (poll_revents r2)
      /\ loop_iteration fds r2 = [handle_read SrcCamera]
      /\ spec_dispatch_all fds r2 = [handle_read SrcCamera; handle_read SrcMavlink]).
Proof. vm_compute. repeat split. Qed.

(** ** Start-up failures *)

(** C7.  When the camera, the telemetry transport and the flow estimator
    were constructed and the inertial sensor's [init] or [start] fails,
    [run] returns -1 after releasing the inertial sensor, the flow
    estimator and the telemetry transport, shutting the camera down and
    releasing it, in this order, each exactly once: the reverse of the
    order of construction.  The event loop is not entered. *)
Theorem inertial_failure_unwinds (o : Startup) (calibrate_bmi : bool) :
  camera_new o = true -> camera_init o = 0 ->
  mavlink_new o = true -> mavlink_init o = 0 ->
  optical_flow_new o = true ->
  bmi_new o = true ->
  bmi_init o <> 0 \/ bmi_start o <> 0 ->
  let t := fst (run o calibrate_bmi) in
  snd (run o calibrate_bmi) = Return (-1)
  /\ teardown t = [Delete TheBmi; Delete TheOpticalFlow; Delete TheMavlink;
                   Shutdown; Delete TheCamera]
  /\ times_released TheOpticalFlow t = 1%nat
  /\ times_released TheMavlink t = 1%nat
  /\ times_shutdown t = 1%nat
  /\ times_released TheCamera t = 1%nat
  /\ times_released TheBmi t = 1%nat
  /\ constructed t = [TheCamera; TheMavlink; TheOpticalFlow; TheBmi]
  /\ released t = rev (constructed t)
  /\ ~ In LoopRun t.
Proof.
  intros Hcn Hci Hmn Hmi Hon Hbn Hfail t. subst t.
  unfold run. rewrite Hcn, Hci, Hmn, Hmi, Hon, Hbn. simpl negb. cbv iota zeta.
  destruct (Z.eqb_spec (bmi_init o) 0) as [Hinit | Hinit]; simpl negb; cbv iota.
  - destruct (Z.eqb_spec (bmi_start o) 0) as [Hstart | Hstart]; simpl negb; cbv iota.
    + exfalso. destruct Hfail; contradiction.
    + destruct calibrate_bmi; vm_compute; repeat split; try reflexivity;
        intros Hin; repeat (destruct Hin as [Hin | Hin]; [discriminate Hin |]);
        exact Hin.
  - vm_compute; repeat split; try reflexivity;
      intros Hin; repeat (destruct Hin as [Hin | Hin]; [discriminate Hin |]);
      exact Hin.
Qed.

Lemma inertial_failure_unwinds_witness :
  let o := mkStartup true 0 true 0 true true 1 0 in
  fst (run o true)
  = [New TheCamera; Init TheCamera; New TheMavlink; Init TheMavlink;
     New TheOpticalFlow; CallbackSet; New TheBmi; Init TheBmi;
     Delete TheBmi; Delete TheOpticalFlow; Delete TheMavlink; Shutdown; Delete TheCamera]
  /\ snd (run o true) = Return (-1)
  /\ times_released TheOpticalFlow (fst (run o true)) = 1%nat
  /\ times_released TheMavlink (fst (run o true)) = 1%nat
  /\ times_shutdown (fst (run o true)) = 1%nat
  /\ times_released TheCamera (fst (run o true)) = 1%nat.
Proof.
  assert (Hfail : bmi_init (mkStartup true 0 true 0 true true 1 0) <> 0
                  \/ bmi_start (mkStartup true 0 true 0 true true 1 0) <> 0)
    by (left; discriminate).
  pose proof (inertial_failure_unwinds (mkStartup true 0 true 0 true true 1 0) true
                eq_refl eq_refl eq_refl eq_refl eq_refl eq_refl Hfail) as Hrun.
  cbv zeta in Hrun.
  destruct Hrun as [Hret [_ [Hflow [Hmav [Hshut [Hcam _]]]]]].
  split; [reflexivity |].
  repeat split; assumption.
Defined.

(** * Further properties *)

(** ** [run] on every start-up outcome *)

(** Splits [run] into its paths. *)
Ltac run_paths o :=
  destruct o as [cn ci mn mi fn bn bi bs];
  unfold run, all_started, throws;
  cbn [camera_new camera_init mavlink_new mavlink_init optical_flow_new
       bmi_new bmi_init bmi_start];
  destruct cn; cbn [negb andb orb];
  [destruct (Z.eqb_spec ci 0); cbn [negb andb orb];
   [destruct mn; cbn [negb andb orb];
    [destruct (Z.eqb_spec mi 0); cbn [negb andb orb];
     [destruct fn; cbn [negb andb orb];
      [destruct bn; cbn [negb andb orb];
       [destruct (Z.eqb_spec bi 0); cbn [negb andb orb];
        [destruct (Z.eqb_spec bs 0); cbn [negb andb orb] | ] | ] | ] | ] | ] | ] | ].

(** X1.  Whenever [run] returns, with 0 or -1, the collaborators have been
    released in the reverse of the order in which they were constructed:
    none is leaked, none released twice, none released that was not
    constructed.  When a new-expression throws, [run] is left with nothing
    released and the camera not shut down: what was constructed stays. *)
Theorem run_releases_in_reverse (o : Startup) (calibrate_bmi : bool) :
  let t := fst (run o calibrate_bmi) in
  match snd (run o calibrate_bmi) with
  | Return _ => released t = rev (constructed t)
  | BadAlloc => released t = [] /\ times_shutdown t = 0%nat
  end.
Proof.
  run_paths o; try destruct calibrate_bmi; cbv zeta; cbn [snd fst];
    first [reflexivity | split; reflexivity].
Qed.

(** X2.  On every path through [run], each operation is applied to an
    object that exists at that point ([init], [calibrate], [start], [stop],
    [shutdown] and [delete] only between the object's [new] and its
    [delete]; the loop only with all four).  When [run] returns no object
    exists any more; when a new-expression throws, the objects constructed
    before it all still exist. *)
Theorem run_lifecycle_sound (o : Startup) (calibrate_bmi : bool) :
  let t := fst (run o calibrate_bmi) in
  match snd (run o calibrate_bmi) with
  | Return _ => lifecycle [] t = Some []
  | BadAlloc => lifecycle [] t = Some (rev (constructed t))
  end.
Proof.
  run_paths o; try destruct calibrate_bmi; cbv zeta; cbn [snd fst]; reflexivity.
Qed.


(** X4.  The camera is shut down exactly when its [init] succeeded and no
    later new-expression throws, and then once, whichever [init] or [start]
    fails later; a camera whose [init] failed is deleted without
    [shutdown]; the camera is deleted, once, exactly when [run] returns
    after allocating it. *)
Theorem camera_shutdown_iff_initialized (o : Startup) (calibrate_bmi : bool) :
  let t := fst (run o calibrate_bmi) in
  times_shutdown t
  = (if camera_new o && (camera_init o =? 0) && negb (throws o) then 1%nat else 0%nat)
  /\ times_released TheCamera t
     = (if camera_new o && negb (throws o) then 1%nat else 0%nat).
Proof.
  run_paths o; try destruct calibrate_bmi; cbv zeta; cbn [snd fst];
    split; reflexivity.
Qed.

(** X5.  The inertial sensor is calibrated exactly when [calibrate_bmi] is
    set and everything up to its [init] succeeded, and then once; it is
    started exactly when everything up to its [init] succeeded. *)
Theorem calibration_when_requested (o : Startup) (calibrate_bmi : bool) :
  let t := fst (run o calibrate_bmi) in
  let ready := camera_new o && (camera_init o =? 0) && mavlink_new o
               && (mavlink_init o =? 0) && optical_flow_new o && bmi_new o
               && (bmi_init o =? 0) in
  occurrences Calibrate t = (if ready && calibrate_bmi then 1%nat else 0%nat)
  /\ occurrences Start t = (if ready then 1%nat else 0%nat).
Proof.
  run_paths o; try destruct calibrate_bmi; cbv zeta; cbn [snd fst];
    split; reflexivity.
Qed.

(** ** The event loop: reach, routing and order *)

Lemma dispatch_desc_no_events (fds : Fds) (d : pollfd) (ps : list Source) :
  Z.land (revents d) (Z.lor POLLIN POLLPRI) = 0 ->
  Z.land (revents d) POLLOUT = 0 ->
  dispatch_desc fds d ps = [].
Proof.
  intros Hin Hout. induction ps as [| p ps IH]; cbn [dispatch_desc]; [reflexivity |].
  destruct (fd d =? fd_of fds p); [| exact IH].
  rewrite Hin, Hout. reflexivity.
Qed.

Lemma In_firstn {A : Type} (x : A) (n : nat) :
  forall l : list A, In x (firstn n l) -> In x l.
Proof.
  induction n as [| n IH]; intros l Hin; [destruct Hin |].
  destruct l as [| a l]; [destruct Hin |].
  destruct Hin as [Heq | Hin]; [left; exact Heq | right; exact (IH l Hin)].
Qed.

Lemma Forall_firstn {A : Type} (P : A -> Prop) (n : nat) (l : list A) :
  Forall P l -> Forall P (firstn n l).
Proof.
  intros Hall. apply Forall_forall. intros x Hin.
  apply In_firstn in Hin. revert x Hin. apply Forall_forall. exact Hall.
Qed.

Lemma flat_map_firstn_prefix {A C : Type} (f : A -> list C) (n : nat) (l : list A) :
  flat_map f l = flat_map f (firstn n l) ++ flat_map f (skipn n l).
Proof.
  rewrite <- flat_map_app, firstn_skipn. reflexivity.
Qed.

Lemma loop_iteration_firstn (fds : Fds) (r : PollResult) :
  loop_iteration fds r
  = flat_map (fun d => dispatch_desc fds d pollables)
      (firstn (Z.to_nat (poll_ret r)) (set_revents (desc_init fds) (poll_revents r))).
Proof.
  unfold loop_iteration.
  destruct (Z.ltb_spec (poll_ret r) 1) as [Hlt | Hge].
  - replace (Z.to_nat (poll_ret r)) with 0%nat by lia. reflexivity.
  - apply dispatch_reaches_prefix. lia.
Qed.

(** X6.  A wake-up dispatches exactly the first [ret] descriptors of the
    array, whether they have events or not (none when [poll] returned less
    than 1); so the handlers invoked are always an initial segment of the
    array-order dispatch of all descriptors. *)
Theorem wakeup_reaches_first_descriptors (fds : Fds) (r : PollResult) :
  let desc := set_revents (desc_init fds) (poll_revents r) in
  loop_iteration fds r
  = flat_map (fun d => dispatch_desc fds d pollables) (firstn (Z.to_nat (poll_ret r)) desc)
  /\ spec_dispatch_all fds r
     = loop_iteration fds r
       ++ flat_map (fun d => dispatch_desc fds d pollables)
            (skipn (Z.to_nat (poll_ret r)) desc).
Proof.
  intros desc. split.
  - apply loop_iteration_firstn.
  - rewrite loop_iteration_firstn. unfold spec_dispatch_all. fold desc.
    apply flat_map_firstn_prefix.
Qed.

Lemma dispatch_zero (fds : Fds) (desc : list pollfd) : dispatch fds 0 desc = [].
Proof. destruct desc; reflexivity. Qed.

Lemma ready_count_cons (r : Z) (rs : list Z) :
  ready_count (r :: rs) = (if r =? 0 then 0 else 1) + ready_count rs.
Proof.
  unfold ready_count. cbn [filter].
  destruct (r =? 0); cbn [negb length]; lia.
Qed.

Lemma ready_count_nonneg (rs : list Z) : 0 <= ready_count rs.
Proof. unfold ready_count. lia. Qed.

Lemma set_revents_cons (d : pollfd) (desc : list pollfd) (r : Z) (rs : list Z) :
  set_revents (d :: desc) (r :: rs)
  = mkPollfd (fd d) (events d) r :: set_revents desc rs.
Proof. reflexivity. Qed.

Lemma no_events_pending (fds : Fds) :
  forall (rs : list Z) (desc : list pollfd),
    forallb (fun x => x =? 0) rs = true ->
    ready_count rs = 0
    /\ flat_map (fun d => dispatch_desc fds d pollables) (set_revents desc rs) = [].
Proof.
  induction rs as [| r rs IH]; intros desc Hall.
  - split; [reflexivity |]. unfold set_revents. rewrite combine_nil. reflexivity.
  - cbn [forallb] in Hall. apply andb_true_iff in Hall. destruct Hall as [Hr Hrs].
    rewrite ready_count_cons, Hr.
    destruct desc as [| d desc]; [split; [apply (IH [] Hrs) | reflexivity] |].
    destruct (IH desc Hrs) as [Hcount Hnone].
    split; [lia |].
    rewrite set_revents_cons. cbn [flat_map]. rewrite Hnone.
    apply Z.eqb_eq in Hr. subst r.
    rewrite dispatch_desc_no_events by reflexivity. reflexivity.
Qed.

Lemma dispatch_ready_first (fds : Fds) :
  forall (rs : list Z) (desc : list pollfd),
    ready_first rs = true ->
    dispatch fds (ready_count rs) (set_revents desc rs)
    = flat_map (fun d => dispatch_desc fds d pollables) (set_revents desc rs).
Proof.
  induction rs as [| r rs IH]; intros desc Hrf.
  - unfold set_revents. rewrite combine_nil. reflexivity.
  - destruct desc as [| d desc]; [reflexivity |].
    cbn [ready_first] in Hrf. rewrite ready_count_cons.
    destruct (Z.eqb_spec r 0) as [Hz | Hnz].
    + destruct (no_events_pending fds (r :: rs) (d :: desc)) as [_ Hnone].
      { cbn [forallb]. rewrite Hrf. subst r. reflexivity. }
      destruct (no_events_pending fds rs desc Hrf) as [Hcount _].
      rewrite Hnone, Hcount. apply dispatch_zero.
    + rewrite set_revents_cons. cbn [dispatch flat_map].
      pose proof (ready_count_nonneg rs) as Hge.
      destruct (Z.eqb_spec (1 + ready_count rs) 0) as [Habs | _]; [lia |].
      cbn [negb]. f_equal.
      replace (1 + ready_count rs - 1) with (ready_count rs) by lia.
      exact (IH desc Hrf).
Qed.

(** X7.  When [poll] returns the number of descriptors with events pending
    and those descriptors come first in the array, the wake-up dispatches
    every one of them. *)
Theorem wakeup_complete_when_ready_first (fds : Fds) (r : PollResult) :
  poll_ret r = ready_count (poll_revents r) ->
  ready_first (poll_revents r) = true ->
  loop_iteration fds r = spec_dispatch_all fds r.
Proof.
  intros Hret Hrf. unfold loop_iteration, spec_dispatch_all. rewrite Hret.
  destruct (Z.ltb_spec (ready_count (poll_revents r)) 1) as [Hlt | Hge].
  - rewrite <- (dispatch_ready_first fds _ (desc_init fds) Hrf).
    assert (Hzero : ready_count (poll_revents r) = 0) by (unfold ready_count in *; lia).
    rewrite Hzero.
    destruct (set_revents (desc_init fds) (poll_revents r)); reflexivity.
  - apply dispatch_ready_first. exact Hrf.
Qed.

Lemma wakeup_complete_when_ready_first_witness :
  loop_iteration (mkFds 3 4 5) (mkPoll 2 [POLLIN; POLLPRI; 0])
  = [handle_read SrcCamera; handle_read SrcBmi]
  /\ loop_iteration (mkFds 3 4 5) (mkPoll 2 [POLLIN; POLLPRI; 0])
     = spec_dispatch_all (mkFds 3 4 5) (mkPoll 2 [POLLIN; POLLPRI; 0]).
Proof.
  split; [reflexivity |].
  apply (wakeup_complete_when_ready_first (mkFds 3 4 5) (mkPoll 2 [POLLIN; POLLPRI; 0]));
    reflexivity.
Defined.

Lemma dispatch_desc_owner (fds : Fds) (p : Source) (ev rev : Z) :
  camera_fd fds <> bmi_fd fds ->
  camera_fd fds <> mavlink_fd fds ->
  bmi_fd fds <> mavlink_fd fds ->
  dispatch_desc fds (mkPollfd (fd_of fds p) ev rev) pollables = calls_for p rev.
Proof.
  intros Hcb Hcm Hbm. unfold pollables, calls_for.
  destruct p; cbn [dispatch_desc fd fd_of revents].
  - rewrite Z.eqb_refl. reflexivity.
  - rewrite (proj2 (Z.eqb_neq (bmi_fd fds) (camera_fd fds))) by congruence.
    rewrite Z.eqb_refl. reflexivity.
  - rewrite (proj2 (Z.eqb_neq (mavlink_fd fds) (camera_fd fds))) by congruence.
    rewrite (proj2 (Z.eqb_neq (mavlink_fd fds) (bmi_fd fds))) by congruence.
    rewrite Z.eqb_refl. reflexivity.
Qed.

Lemma set_revents_desc (fds : Fds) (ps : list Source) :
  forall rs : list Z,
    set_revents (map (fun p => mkPollfd (fd_of fds p) POLLIN 0) ps) rs
    = map (fun pr => mkPollfd (fd_of fds (fst pr)) POLLIN (snd pr)) (combine ps rs).
Proof.
  unfold set_revents.
  induction ps as [| p ps IH]; intros rs; [reflexivity |].
  destruct rs as [| r rs]; [reflexivity |].
  cbn [map combine fst snd fd events]. f_equal. apply IH.
Qed.

Lemma flat_map_of_map {A C D : Type} (g : A -> C) (f : C -> list D) (l : list A) :
  flat_map f (map g l) = flat_map (fun a => f (g a)) l.
Proof.
  induction l as [| a l IH]; cbn [map flat_map]; [reflexivity | now rewrite IH].
Qed.

(** X8.  When the three handles differ, a wake-up invokes, for each of the
    first [ret] pollables in the order camera, inertial sensor, transport,
    that pollable's own handlers: the read handler when its POLLIN or
    POLLPRI is set, then the write handler when its POLLOUT is set. *)
Theorem wakeup_with_distinct_handles (fds : Fds) (r : PollResult) :
  camera_fd fds <> bmi_fd fds ->
  camera_fd fds <> mavlink_fd fds ->
  bmi_fd fds <> mavlink_fd fds ->
  loop_iteration fds r
  = flat_map (fun pr => calls_for (fst pr) (snd pr))
      (firstn (Z.to_nat (poll_ret r)) (combine pollables (poll_revents r))).
Proof.
  intros Hcb Hcm Hbm.
  rewrite loop_iteration_firstn. unfold desc_init.
  rewrite set_revents_desc, firstn_map, flat_map_of_map.
  apply flat_map_ext. intros [p rev]. cbn [fst snd].
  apply dispatch_desc_owner; assumption.
Qed.

Lemma wakeup_with_distinct_handles_witness :
  loop_iteration (mkFds 3 4 5) (mkPoll 3 [POLLPRI; 0; Z.lor POLLIN POLLOUT])
  = [handle_read SrcCamera; handle_read SrcMavlink; handle_canwrite SrcMavlink].
Proof.
  apply (wakeup_with_distinct_handles (mkFds 3 4 5)
           (mkPoll 3 [POLLPRI; 0; Z.lor POLLIN POLLOUT])); discriminate.
Defined.

Lemma dispatch_desc_first_match (fds : Fds) (d : pollfd) (c : Call) :
  In c (dispatch_desc fds d pollables) ->
  fd d = fd_of fds (call_source c)
  /\ (call_source c = SrcBmi -> fd d <> camera_fd fds)
  /\ (call_source c = SrcMavlink -> fd d <> camera_fd fds /\ fd d <> bmi_fd fds).
Proof.
  unfold pollables. cbn [dispatch_desc fd_of].
  destruct (Z.eqb_spec (fd d) (camera_fd fds)) as [Hc | Hc];
    [| destruct (Z.eqb_spec (fd d) (bmi_fd fds)) as [Hb | Hb];
       [| destruct (Z.eqb_spec (fd d) (mavlink_fd fds)) as [Hm | Hm]]];
    intros Hin; try (destruct Hin; fail);
    apply in_app_or in Hin;
    destruct Hin as [Hin | Hin];
    match type of Hin with
    | In _ (if ?b then _ else _) => destruct b
    end;
    try (destruct Hin; fail);
    destruct Hin as [Hin | []]; subst c; cbn [call_source fd_of];
    repeat split; try assumption; try discriminate; intros; assumption.
Qed.

(** X9.  The owner of a descriptor is found by its handle alone: when the
    inertial sensor's handle equals the camera's, no wake-up ever invokes a
    handler of the inertial sensor (its events go to the camera's). *)
Theorem shared_handle_shadows_later_pollable (fds : Fds) (r : PollResult) (c : Call) :
  bmi_fd fds = camera_fd fds ->
  In c (loop_iteration fds r) ->
  call_source c <> SrcBmi.
Proof.
  intros Hsame Hin Hsrc.
  rewrite loop_iteration_firstn in Hin.
  apply in_flat_map in Hin. destruct Hin as [d [_ Hd]].
  destruct (dispatch_desc_first_match fds d c Hd) as [Hfd [Hnot _]].
  rewrite Hsrc in Hfd. cbn [fd_of] in Hfd.
  apply (Hnot Hsrc). congruence.
Qed.

Lemma shared_handle_shadows_later_pollable_witness :
  loop_iteration (mkFds 3 3 5) (mkPoll 2 [POLLIN; POLLIN; 0])
  = [handle_read SrcCamera; handle_read SrcCamera]
  /\ call_source (handle_read SrcCamera) <> SrcBmi.
Proof.
  split; [reflexivity |].
  apply (shared_handle_shadows_later_pollable (mkFds 3 3 5)
           (mkPoll 2 [POLLIN; POLLIN; 0]) (handle_read SrcCamera)).
  - reflexivity.
  - left. reflexivity.
Defined.

Lemma set_revents_events (desc : list pollfd) :
  forall (rs : list Z) (P : Z -> Prop),
    Forall P rs -> Forall (fun d => P (revents d)) (set_revents desc rs).
Proof.
  unfold set_revents.
  induction desc as [| d desc IH]; intros rs P Hall; [constructor |].
  destruct Hall as [| r rs Hr Hrs]; [constructor |].
  cbn [combine map]. constructor; [exact Hr | exact (IH rs P Hrs)].
Qed.

(** X10.  A wake-up in which no descriptor has POLLIN, POLLPRI or POLLOUT
    set (only error or hang-up events, say) invokes no handler, whatever
    [poll] returned. *)
Theorem error_events_invoke_nothing (fds : Fds) (r : PollResult) :
  Forall (fun rev => Z.land rev (Z.lor (Z.lor POLLIN POLLPRI) POLLOUT) = 0)
         (poll_revents r) ->
  loop_iteration fds r = [].
Proof.
  intros Hall. rewrite loop_iteration_firstn.
  pose proof (set_revents_events (desc_init fds) _ _ Hall) as Hdesc.
  apply (Forall_firstn _ (Z.to_nat (poll_ret r))) in Hdesc.
  induction Hdesc as [| d rest Hd _ IH]; cbn [flat_map]; [reflexivity |].
  rewrite IH, app_nil_r.
  apply dispatch_desc_no_events.
  - replace (Z.lor POLLIN POLLPRI)
      with (Z.land (Z.lor (Z.lor POLLIN POLLPRI) POLLOUT) (Z.lor POLLIN POLLPRI))
      by reflexivity.
    rewrite Z.land_assoc, Hd. reflexivity.
  - replace POLLOUT
      with (Z.land (Z.lor (Z.lor POLLIN POLLPRI) POLLOUT) POLLOUT) by reflexivity.
    rewrite Z.land_assoc, Hd. reflexivity.
Qed.

Lemma error_events_invoke_nothing_witness :
  ready_count [8; 0; 24] = 2
  /\ loop_iteration (mkFds 3 4 5) (mkPoll 2 [8; 0; 24]) = [].
Proof.
  split; [reflexivity |].
  apply (error_events_invoke_nothing (mkFds 3 4 5) (mkPoll 2 [8; 0; 24])).
  repeat constructor.
Defined.

Lemma NoDup_calls_for (p : Source) (rev : Z) : NoDup (calls_for p rev).
Proof.
  unfold calls_for.
  destruct (negb (Z.land rev (Z.lor POLLIN POLLPRI) =? 0));
    destruct (negb (Z.land rev POLLOUT =? 0)); cbn [app];
    repeat constructor; cbn [In]; intuition discriminate.
Qed.

Lemma calls_for_source (p : Source) (rev : Z) (c : Call) :
  In c (calls_for p rev) -> call_source c = p.
Proof.
  unfold calls_for. intros Hin. apply in_app_or in Hin.
  destruct Hin as [Hin | Hin];
    match type of Hin with
    | In _ (if ?b then _ else _) => destruct b
    end;
    try (destruct Hin; fail); destruct Hin as [Hin | []]; subst c; reflexivity.
Qed.

Lemma NoDup_calls_of_sources (prs : list (Source * Z)) :
  NoDup (map fst prs) ->
  NoDup (flat_map (fun pr => calls_for (fst pr) (snd pr)) prs).
Proof.
  induction prs as [| [p rev] prs IH]; cbn [map flat_map fst snd]; intros Hnd.
  - constructor.
  - inversion Hnd as [| q qs Hnotin Hrest]; subst.
    apply NoDup_app.
    + apply NoDup_calls_for.
    + exact (IH Hrest).
    + intros c Hc Hc'. apply calls_for_source in Hc.
      apply in_flat_map in Hc'. destruct Hc' as [[p' rev'] [Hin Hcall]].
      apply calls_for_source in Hcall. cbn [fst] in Hcall.
      apply (in_map fst) in Hin. cbn [fst] in Hin.
      apply Hnotin. congruence.
Qed.

(** X11.  When the three handles differ, no handler is invoked twice in
    one wake-up. *)
Theorem no_handler_twice_per_wakeup (fds : Fds) (r : PollResult) :
  camera_fd fds <> bmi_fd fds ->
  camera_fd fds <> mavlink_fd fds ->
  bmi_fd fds <> mavlink_fd fds ->
  NoDup (loop_iteration fds r).
Proof.
  intros Hcb Hcm Hbm.
  rewrite loop_iteration_firstn. unfold desc_init.
  rewrite set_revents_desc, firstn_map, flat_map_of_map.
  rewrite (flat_map_ext _ (fun pr => calls_for (fst pr) (snd pr))).
  - apply NoDup_calls_of_sources.
    rewrite <- firstn_map.
    assert (Hsub : forall (ps : list Source) (rs : list Z) n,
               NoDup ps -> NoDup (firstn n (map fst (combine ps rs)))).
    { clear. induction ps as [| p ps IH]; intros rs n Hnd.
      - cbn. rewrite firstn_nil. constructor.
      - destruct rs as [| x rs]; [cbn; rewrite firstn_nil; constructor |].
        destruct n as [| n]; [constructor |].
        cbn [combine map fst firstn]. inversion Hnd as [| q qs Hnotin Hrest]; subst.
        constructor; [| exact (IH rs n Hrest)].
        intros Hin. apply Hnotin.
        apply In_firstn in Hin. apply in_map_iff in Hin.
        destruct Hin as [[p' x'] [Heq Hin]]. cbn [fst] in Heq. subst p'.
        apply in_combine_l in Hin. exact Hin. }
    apply Hsub. unfold pollables.
    repeat constructor; cbn [In]; intuition discriminate.
  - intros [p rev]. cbn [fst snd]. apply dispatch_desc_owner; assumption.
Qed.

Lemma no_handler_twice_per_wakeup_witness :
  NoDup (loop_iteration (mkFds 3 4 5) (mkPoll 3 [POLLIN; POLLIN; Z.lor POLLIN POLLOUT])).
Proof.
  apply (no_handler_twice_per_wakeup (mkFds 3 4 5)
           (mkPoll 3 [POLLIN; POLLIN; Z.lor POLLIN POLLOUT])); discriminate.
Defined.

(** ** The event loop: signals and empty waits *)

Lemma signals_clear_flag (sigs : list Signal) :
  fold_left signal_delivered sigs false = false
  /\ fold_left signal_delivered sigs true = negb (existsb terminates sigs).
Proof.
  induction sigs as [| sig sigs [IHf IHt]]; [split; reflexivity |].
  destruct sig; cbn [fold_left existsb terminates signal_delivered
                     signal_handlers_setup exit_signal_handler orb];
    split; assumption.
Qed.

Lemma loop_while_stopped (fds : Fds) (its : list Iteration) :
  loop_while fds false its = [].
Proof. destruct its; reflexivity. Qed.

(** X12.  The loop ends at the first pass during which SIGTERM or SIGINT
    is delivered: that pass is dispatched in full, as are the passes before
    it, and nothing is dispatched after it, whatever [poll] would return. *)
Theorem loop_ends_after_termination_signal
  (fds : Fds) (before : list Iteration) (it : Iteration) (after : list Iteration) :
  Forall (fun i => existsb terminates (it_signals i) = false) before ->
  existsb terminates (it_signals it) = true ->
  loop_signals fds (before ++ it :: after) = loop fds (map it_poll (before ++ [it])).
Proof.
  intros Hquiet Hstop. unfold loop_signals.
  induction Hquiet as [| i before Hi _ IH]; cbn [app map loop_while].
  - rewrite (proj2 (signals_clear_flag _)), Hstop. cbn [negb].
    rewrite loop_while_stopped. unfold loop. cbn [flat_map]. reflexivity.
  - rewrite (proj2 (signals_clear_flag _)), Hi. cbn [negb].
    rewrite IH. unfold loop. cbn [flat_map]. reflexivity.
Qed.

Lemma loop_ends_after_termination_signal_witness :
  loop_signals (mkFds 3 4 5)
    ([mkIteration (mkPoll 1 [POLLIN; 0; 0]) [SIGPIPE]]
     ++ mkIteration (mkPoll 2 [POLLIN; POLLIN; 0]) [SIGINT]
     :: [mkIteration (mkPoll 3 [POLLIN; POLLIN; POLLIN]) []])
  = [handle_read SrcCamera; handle_read SrcCamera; handle_read SrcBmi].
Proof.
  apply (loop_ends_after_termination_signal (mkFds 3 4 5)
           [mkIteration (mkPoll 1 [POLLIN; 0; 0]) [SIGPIPE]]
           (mkIteration (mkPoll 2 [POLLIN; POLLIN; 0]) [SIGINT])
           [mkIteration (mkPoll 3 [POLLIN; POLLIN; POLLIN]) []]).
  - repeat constructor.
  - reflexivity.
Defined.

(** X13.  SIGPIPE never ends the loop: while no other signal is delivered,
    every pass is dispatched. *)
Theorem sigpipe_does_not_end_loop (fds : Fds) (its : list Iteration) :
  Forall (fun i => Forall (fun sig => sig = SIGPIPE) (it_signals i)) its ->
  loop_signals fds its = loop fds (map it_poll its).
Proof.
  intros Hpipe. unfold loop_signals, loop.
  induction Hpipe as [| i its Hi _ IH]; cbn [map loop_while flat_map]; [reflexivity |].
  rewrite (proj2 (signals_clear_flag _)).
  assert (Hnone : existsb terminates (it_signals i) = false).
  { clear - Hi. induction Hi as [| sig sigs Hsig _ IHs]; [reflexivity |].
    subst sig. cbn [existsb terminates orb]. exact IHs. }
  rewrite Hnone. cbn [negb]. rewrite IH. reflexivity.
Qed.

Lemma sigpipe_does_not_end_loop_witness :
  loop_signals (mkFds 3 4 5)
    [mkIteration (mkPoll 1 [POLLIN; 0; 0]) [SIGPIPE; SIGPIPE];
     mkIteration (mkPoll 2 [POLLIN; POLLIN; 0]) [SIGPIPE]]
  = [handle_read SrcCamera; handle_read SrcCamera; handle_read SrcBmi].
Proof.
  apply (sigpipe_does_not_end_loop (mkFds 3 4 5)
           [mkIteration (mkPoll 1 [POLLIN; 0; 0]) [SIGPIPE; SIGPIPE];
            mkIteration (mkPoll 2 [POLLIN; POLLIN; 0]) [SIGPIPE]]).
  repeat constructor.
Defined.

(** X14.  Waits that return less than 1 (interrupted, or nothing ready)
    leave no trace: the loop behaves as if only the other waits had
    happened, whatever [revents] they left. *)
Theorem empty_waits_are_skipped (fds : Fds) (polls : list PollResult) :
  loop fds polls = loop fds (filter (fun r => 1 <=? poll_ret r) polls).
Proof.
  unfold loop.
  induction polls as [| r polls IH]; cbn [filter flat_map]; [reflexivity |].
  destruct (Z.leb_spec 1 (poll_ret r)) as [Hge | Hlt]; cbn [flat_map].
  - rewrite IH. reflexivity.
  - rewrite IH. unfold loop_iteration.
    destruct (Z.ltb_spec (poll_ret r) 1) as [_ | Habs]; [reflexivity | lia].
Qed.

(** ** The callback over any number of frames *)

Section ManyFrames.
Context {E B : Type} `{OpticalFlowOpenCV E} `{BMI160 B}.

Lemma callback_appends (s : Mainloop E B) img len timestamp :
  exists tail,
    written (_mavlink (camera_callback s img len timestamp))
    = written (_mavlink s) ++ tail
    /\ (length tail <= 1)%nat.
Proof.
  pose proof (callback_cases s img timestamp) as Hcases. cbv zeta in Hcases.
  destruct Hcases as [Hs | [[Hf Hq] | [Hf Hq]]].
  - rewrite (callback_stale s img len timestamp Hs).
    exists []. cbn. rewrite app_nil_r. split; [reflexivity | lia].
  - rewrite (callback_not_ready s img len timestamp Hf Hq).
    exists []. cbn. rewrite app_nil_r. split; [reflexivity | lia].
  - rewrite (callback_emits s img len timestamp Hf Hq).
    eexists. cbn. split; [reflexivity | cbn; lia].
Qed.

Lemma callback_bmi (s : Mainloop E B) img len timestamp :
  _bmi (camera_callback s img len timestamp) = fst (gyro_integrated_get (_bmi s)).
Proof.
  pose proof (callback_cases s img timestamp) as Hcases. cbv zeta in Hcases.
  destruct Hcases as [Hs | [[Hf Hq] | [Hf Hq]]].
  - rewrite (callback_stale s img len timestamp Hs). reflexivity.
  - rewrite (callback_not_ready s img len timestamp Hf Hq). reflexivity.
  - rewrite (callback_emits s img len timestamp Hf Hq). reflexivity.
Qed.

Lemma deliver_all_cons (s : Mainloop E B) (f : Frame) (frames : list Frame) :
  deliver_all s (f :: frames)
  = deliver_all (camera_callback s (f_img f) (f_len f) (f_time f)) frames.
Proof. reflexivity. Qed.
End ManyFrames.

(** X15.  The callback only ever appends to what the transport was given:
    after any sequence of frames the earlier messages are still there, in
    place, followed by at most one new message per frame. *)
Theorem messages_only_appended
  {E B : Type} `{OpticalFlowOpenCV E} `{BMI160 B}
  (frames : list Frame) (s : Mainloop E B) :
  exists tail,
    written (_mavlink (deliver_all s frames)) = written (_mavlink s) ++ tail
    /\ (length tail <= length frames)%nat.
Proof.
  revert s. induction frames as [| f frames IH]; intros s.
  - exists []. cbn. rewrite app_nil_r. split; [reflexivity | lia].
  - rewrite deliver_all_cons.
    destruct (callback_appends s (f_img f) (f_len f) (f_time f)) as [t1 [Hw1 Hl1]].
    destruct (IH (camera_callback s (f_img f) (f_len f) (f_time f))) as [t2 [Hw2 Hl2]].
    exists (t1 ++ t2). rewrite Hw2, Hw1, app_assoc, length_app.
    split; [reflexivity | cbn [length]; lia].
Qed.

(** X16.  Every frame queries the inertial sensor exactly once, whether or
    not its output is suppressed: after [n] frames the sensor is in the
    state [n] queries leave. *)
Theorem one_gyro_query_per_frame
  {E B : Type} `{OpticalFlowOpenCV E} `{BMI160 B}
  (frames : list Frame) (s : Mainloop E B) :
  _bmi (deliver_all s frames) = bmi_after (length frames) (_bmi s).
Proof.
  revert s. induction frames as [| f frames IH]; intros s; [reflexivity |].
  rewrite deliver_all_cons, IH, callback_bmi. reflexivity.
Qed.

(** X17.  While the inertial sensor keeps returning the sample time that
    was last seen (it is calibrating, or stopped), no message is emitted
    for any frame, whatever quality the estimator reports, and the last
    seen time stays. *)
Theorem stuck_sensor_emits_nothing
  {E B : Type} `{OpticalFlowOpenCV E} `{BMI160 B}
  (frames : list Frame) (s : Mainloop E B) :
  (forall n, Timespec.eqb (_gyro_last_timespec s)
               (gyro_stamp (bmi_after n (_bmi s))) = true) ->
  _mavlink (deliver_all s frames) = _mavlink s
  /\ _gyro_last_timespec (deliver_all s frames) = _gyro_last_timespec s.
Proof.
  revert s. induction frames as [| f frames IH]; intros s Hstuck; [now split |].
  rewrite deliver_all_cons.
  pose proof (Hstuck 0%nat) as Hnow. cbn [bmi_after] in Hnow. unfold gyro_stamp in Hnow.
  pose proof (callback_stale s (f_img f) (f_len f) (f_time f) Hnow) as Hstep.
  destruct (IH (camera_callback s (f_img f) (f_len f) (f_time f))) as [Hm Hl].
  - intros n. rewrite callback_bmi. rewrite Hstep at 1. cbn [_gyro_last_timespec].
    exact (Hstuck (S n)).
  - rewrite Hm, Hl, Hstep. now split.
Qed.

Lemma stuck_sensor_emits_nothing_witness :
  let s := session [ready 200; ready 255; ready 0] [] in
  let frames := [frame 1 0; frame 1 33000; frame 1 66000] in
  _mavlink (deliver_all s frames) = _mavlink s
  /\ _gyro_last_timespec (deliver_all s frames) = _gyro_last_timespec s.
Proof.
  assert (Hidle : forall n, bmi_after n (mkScriptedGyro []) = mkScriptedGyro []).
  { induction n as [| n IHn]; [reflexivity | exact IHn]. }
  apply (stuck_sensor_emits_nothing [frame 1 0; frame 1 33000; frame 1 66000]
           (session [ready 200; ready 255; ready 0] [])).
  intros n. cbn [_bmi session]. rewrite Hidle. reflexivity.
Defined.

(** X18.  A new gyro sample that arrives with a frame whose flow is not
    ready is used up: if the sensor has nothing newer at the next frame,
    that frame is suppressed too, even when its flow is ready, so the
    sample is never sent. *)
Theorem gated_frame_consumes_sample
  {E B : Type} `{OpticalFlowOpenCV E} `{BMI160 B}
  (s : Mainloop E B) img1 len1 t1 img2 len2 t2 :
  let s1 := camera_callback s img1 len1 t1 in
  Timespec.eqb (_gyro_last_timespec s) (gyro_stamp (_bmi s)) = false ->
  flow_quality (snd (flow_call s img1 t1)) < 0 ->
  Timespec.eqb (gyro_stamp (_bmi s))
    (gyro_stamp (fst (gyro_integrated_get (_bmi s)))) = true ->
  _mavlink (camera_callback s1 img2 len2 t2) = _mavlink s.
Proof.
  intros s1 Hfresh Hq Hsame. subst s1.
  pose proof (callback_not_ready s img1 len1 t1 Hfresh Hq) as Hstep1.
  rewrite callback_stale.
  - rewrite Hstep1. reflexivity.
  - rewrite Hstep1. cbn [_gyro_last_timespec _bmi]. exact Hsame.
Qed.

Lemma gated_frame_consumes_sample_witness :
  let s := session [ready (-1); ready 200] [sample 7; sample 7] in
  flow_quality (snd (flow_call (camera_callback s [] 0 (Timeval.mk 1 0)) []
                       (Timeval.mk 1 33000))) = 200
  /\ _mavlink (camera_callback (camera_callback s [] 0 (Timeval.mk 1 0)) [] 0
                 (Timeval.mk 1 33000)) = _mavlink s.
Proof.
  split; [reflexivity |].
  assert (Hq : -1 < 0) by lia.
  exact (gated_frame_consumes_sample
           (session [ready (-1); ready 200] [sample 7; sample 7])
           [] 0 (Timeval.mk 1 0) [] 0 (Timeval.mk 1 33000) eq_refl Hq eq_refl).
Defined.

(** X19.  After every invocation, suppressed or not, the last seen gyro
    time is the time of the sample that invocation read. *)
Theorem last_gyro_time_is_latest
  {E B : Type} `{OpticalFlowOpenCV E} `{BMI160 B}
  (s : Mainloop E B) img len timestamp :
  let s' := camera_callback s img len timestamp in
  Timespec.tv_sec (_gyro_last_timespec s') = Timespec.tv_sec (gyro_stamp (_bmi s))
  /\ Timespec.tv_nsec (_gyro_last_timespec s') = Timespec.tv_nsec (gyro_stamp (_bmi s)).
Proof.
  intros s'. subst s'. unfold gyro_stamp.
  pose proof (callback_cases s img timestamp) as Hcases. cbv zeta in Hcases.
  destruct Hcases as [Hs | [[Hf Hq] | [Hf Hq]]].
  - rewrite (callback_stale s img len timestamp Hs). cbn [_gyro_last_timespec].
    apply timespec_eqb_true. exact Hs.
  - rewrite (callback_not_ready s img len timestamp Hf Hq). now split.
  - rewrite (callback_emits s img len timestamp Hf Hq). now split.
Qed.

(** X20.  Whatever the frames, their raw times and the session, every
    rebased timestamp handed to the estimator lies in the unsigned 32-bit
    range: it is never negative, also when a raw time precedes the
    origin. *)
Theorem rebased_times_in_range
  {E B : Type} `{OpticalFlowOpenCV E} `{BMI160 B}
  (frames : list Frame) (s : Mainloop E B) :
  Forall (fun v => 0 <= v < 2 ^ 32) (rebased_sequence s frames).
Proof.
  unfold rebased_sequence. revert s.
  induction frames as [| f frames IH]; intros s; cbn [deliver map]; constructor.
  - rewrite callback_prev_timestamp. unfold rebase.
    destruct (_camera_initial_timestamp s =? 0); cbn [negb snd].
    + lia.
    + apply to_uint32_range.
  - apply IH.
Qed.

(** X21.  Once the origin is set it is never changed: no later frame moves
    or clears it, however the raw times run (backwards, or through 0). *)
Theorem origin_never_changes
  {E B : Type} `{OpticalFlowOpenCV E} `{BMI160 B}
  (frames : list Frame) (s : Mainloop E B) :
  _camera_initial_timestamp s <> 0 ->
  Forall (fun s' => _camera_initial_timestamp s' = _camera_initial_timestamp s)
         (deliver s frames).
Proof.
  intros Hset.
  destruct (deliver_origin_set _ frames Hset s eq_refl) as [_ Hconst].
  apply Forall_forall. intros s' Hin.
  apply (in_map _camera_initial_timestamp) in Hin. rewrite Hconst in Hin.
  apply repeat_spec in Hin. exact Hin.
Qed.

Lemma origin_never_changes_witness :
  let s := camera_callback (session [] []) [] 0 (Timeval.mk 1 0) in
  _camera_initial_timestamp s = 1000000
  /\ Forall (fun s' => _camera_initial_timestamp s' = _camera_initial_timestamp s)
            (deliver s [frame 0 0; frame 0 5; frame 4294 967296]).
Proof.
  split; [reflexivity |].
  apply (origin_never_changes [frame 0 0; frame 0 5; frame 4294 967296]
           (camera_callback (session [] []) [] 0 (Timeval.mk 1 0))).
  vm_compute. discriminate.
Defined.

(** ** The crop rectangle *)

(** X22.  When the estimator's image is no larger than the frame, the crop
    rectangle lies inside the frame and is centred to within one pixel;
    and when it is not empty, the pointer handed to the estimator and the
    last pixel of the cropped view lie inside the frame buffer. *)
Theorem crop_inside_frame
  {E B : Type} `{OpticalFlowOpenCV E} `{BMI160 B}
  (s : Mainloop E B) (img : image) :
  let w := width (_camera s) in
  let h := height (_camera s) in
  let c := crop_rect s in
  0 <= getImageWidth (_optical_flow s) <= w ->
  0 <= getImageHeight (_optical_flow s) <= h ->
  (0 <= rect_x c /\ rect_x c + rect_width c <= w)
  /\ (0 <= rect_y c /\ rect_y c + rect_height c <= h)
  /\ (-1 <= (w - rect_width c - rect_x c) - rect_x c <= 1)
  /\ (-1 <= (h - rect_height c - rect_y c) - rect_y c <= 1)
  /\ (1 <= rect_width c -> 1 <= rect_height c ->
      0 <= ptr_offset (cropped_data s img)
      /\ ptr_offset (cropped_data s img)
         + (rect_height c - 1) * w + (rect_width c - 1) < w * h).
Proof.
  intros w h c Hw Hh.
  unfold cropped_data. fold c. cbn [ptr_offset].
  subst c. unfold crop_rect. cbn [rect_x rect_y rect_width rect_height]. fold w h.
  set (iw := getImageWidth (_optical_flow s)) in *.
  set (ih := getImageHeight (_optical_flow s)) in *.
  rewrite !Z.quot_div_nonneg by lia.
  pose proof (Z.div_mod w 2 ltac:(lia)) as Hw2.
  pose proof (Z.mod_pos_bound w 2 ltac:(lia)) as Hw2b.
  pose proof (Z.div_mod h 2 ltac:(lia)) as Hh2.
  pose proof (Z.mod_pos_bound h 2 ltac:(lia)) as Hh2b.
  pose proof (Z.div_mod iw 2 ltac:(lia)) as Hiw2.
  pose proof (Z.mod_pos_bound iw 2 ltac:(lia)) as Hiw2b.
  pose proof (Z.div_mod ih 2 ltac:(lia)) as Hih2.
  pose proof (Z.mod_pos_bound ih 2 ltac:(lia)) as Hih2b.
  assert (Hx : 0 <= w / 2 - iw / 2 /\ w / 2 - iw / 2 + iw <= w) by lia.
  assert (Hy : 0 <= h / 2 - ih / 2 /\ h / 2 - ih / 2 + ih <= h) by lia.
  split; [exact Hx |]. split; [exact Hy |].
  split; [| split].
  - lia.
  - lia.
  - intros Hiw Hih. split; [nia |]. nia.
Qed.

Lemma crop_inside_frame_witness :
  let s := session [] [] in
  crop_rect s = mkRect 288 208 64 64
  /\ ptr_offset (cropped_data s []) = 133408
  /\ ptr_offset (cropped_data s []) + (64 - 1) * 640 + (64 - 1) < 640 * 480.
Proof.
  split; [reflexivity |]. split; [reflexivity |].
  assert (Hw : 0 <= 64 <= 640) by lia.
  assert (Hh : 0 <= 64 <= 480) by lia.
  assert (H1 : 1 <= 64) by lia.
  pose proof (crop_inside_frame (session [] []) [] Hw Hh) as Hcrop.
  cbv zeta in Hcrop. destruct Hcrop as [_ [_ [_ [_ Hptr]]]].
  exact (proj2 (Hptr H1 H1)).
Defined.

(** ** The message time *)

(** X23.  For a normalised capture time ([tv_usec] below one second,
    [tv_sec] from 0 to below 2^44) the time_usec of a message holds the
    capture time without loss: its quotient and remainder by 1000000 are
    [tv_sec] and [tv_usec]. *)
Theorem time_usec_keeps_capture_time
  (timestamp : Timeval.t) (r : FlowResult) (gyro_data : Point3.t) :
  0 <= Timeval.tv_usec timestamp < USEC_PER_SEC ->
  0 <= Timeval.tv_sec timestamp < 2 ^ 44 ->
  let msg := build_msg timestamp r gyro_data in
  time_usec msg / USEC_PER_SEC = Timeval.tv_sec timestamp
  /\ time_usec msg mod USEC_PER_SEC = Timeval.tv_usec timestamp.
Proof.
  intros Husec Hsec msg. subst msg. cbn [build_msg time_usec].
  unfold timestamp_usec, to_uint64, USEC_PER_SEC in *.
  rewrite Z.mod_small by lia.
  split.
  - rewrite Z.div_add by lia. rewrite Z.div_small by lia. lia.
  - rewrite Z.mod_add by lia. apply Z.mod_small. lia.
Qed.

Lemma time_usec_keeps_capture_time_witness :
  let msg := build_msg (Timeval.mk 1700000000 999999) (ready 0) (fst (sample 1)) in
  time_usec msg = 1700000000999999
  /\ time_usec msg / USEC_PER_SEC = 1700000000
  /\ time_usec msg mod USEC_PER_SEC = 999999.
Proof.
  split; [reflexivity |].
  assert (Husec : 0 <= 999999 < USEC_PER_SEC) by (unfold USEC_PER_SEC; lia).
  assert (Hsec : 0 <= 1700000000 < 2 ^ 44) by lia.
  exact (time_usec_keeps_capture_time (Timeval.mk 1700000000 999999) (ready 0)
           (fst (sample 1)) Husec Hsec).
Defined.

(** ** One message per frame *)

Section EveryFrameEmits.
Context {E B : Type} `{OpticalFlowOpenCV E} `{BMI160 B}.

Hypothesis quality_ready :
  forall (e : E) p t, 0 <= flow_quality (snd (calcFlow e p t)).
Hypothesis gyro_advances :
  forall b : B, Timespec.ltb (gyro_stamp b) (gyro_stamp (fst (gyro_integrated_get b))) = true.

Lemma emitting_step (s : Mainloop E B) img len timestamp :
  Timespec.ltb (_gyro_last_timespec s) (gyro_stamp (_bmi s)) = true ->
  let s' := camera_callback s img len timestamp in
  (exists msg, written (_mavlink s') = written (_mavlink s) ++ [msg]
               /\ time_usec msg = timestamp_usec timestamp)
  /\ Timespec.ltb (_gyro_last_timespec s') (gyro_stamp (_bmi s')) = true.
Proof.
  intros Hlt s'. subst s'.
  pose proof (timespec_ltb_neq _ _ Hlt) as Hfresh.
  assert (Hq : 0 <= flow_quality (snd (flow_call s img timestamp)))
    by (unfold flow_call; apply quality_ready).
  rewrite (callback_emits s img len timestamp Hfresh Hq). cbn.
  split; [eexists; split; reflexivity |].
  apply gyro_advances.
Qed.

Lemma emitting_frames (frames : list Frame) :
  forall s : Mainloop E B,
    Timespec.ltb (_gyro_last_timespec s) (gyro_stamp (_bmi s)) = true ->
    exists msgs,
      written (_mavlink (deliver_all s frames)) = written (_mavlink s) ++ msgs
      /\ map time_usec msgs = map (fun f => timestamp_usec (f_time f)) frames.
Proof.
  induction frames as [| f frames IH]; intros s Hlt.
  - exists []. cbn. rewrite app_nil_r. now split.
  - rewrite deliver_all_cons.
    destruct (emitting_step s (f_img f) (f_len f) (f_time f) Hlt)
      as [[msg [Hw Ht]] Hlt'].
    destruct (IH _ Hlt') as [msgs [Hws Hts]].
    exists (msg :: msgs). rewrite Hws, Hw, <- app_assoc.
    split; [reflexivity |]. cbn [map]. rewrite Ht, Hts. reflexivity.
Qed.
End EveryFrameEmits.

(** X24.  With an estimator whose quality is never negative and gyro
    sample times that strictly increase from the last one seen, every
    frame of any sequence yields exactly one message, in frame order, each
    carrying its own frame's raw capture time in time_usec. *)
Theorem every_frame_emits_in_order
  {E B : Type} `{OpticalFlowOpenCV E} `{BMI160 B}
  (frames : list Frame) (s : Mainloop E B) :
  (forall (e : E) p t, 0 <= flow_quality (snd (calcFlow e p t))) ->
  (forall b : B,
      Timespec.ltb (gyro_stamp b) (gyro_stamp (fst (gyro_integrated_get b))) = true) ->
  Timespec.ltb (_gyro_last_timespec s) (gyro_stamp (_bmi s)) = true ->
  length (emitted s (deliver_all s frames)) = length frames
  /\ map time_usec (emitted s (deliver_all s frames))
     = map (fun f => timestamp_usec (f_time f)) frames.
Proof.
  intros Hq Hgyro Hlast.
  destruct (emitting_frames Hq Hgyro frames s Hlast) as [msgs [Hw Ht]].
  unfold emitted. rewrite Hw, skipn_length_app.
  split; [| exact Ht].
  rewrite <- (length_map time_usec), Ht, length_map. reflexivity.
Qed.

Lemma every_frame_emits_in_order_witness :
  let frames := [frame 2 0; frame 1 5; frame 1 5; frame 7 250000] in
  length (emitted steady_session (deliver_all steady_session frames)) = 4%nat
  /\ map time_usec (emitted steady_session (deliver_all steady_session frames))
     = [2000000; 1000005; 1000005; 7250000].
Proof.
  assert (Hq : forall (e : SteadyFlow) p t, 0 <= flow_quality (snd (calcFlow e p t)))
    by (intros e p t; cbn; lia).
  assert (Hgyro : forall b : SteadyGyro,
             Timespec.ltb (gyro_stamp b) (gyro_stamp (fst (gyro_integrated_get b))) = true).
  { intros b. unfold gyro_stamp, Timespec.ltb. cbn.
    apply orb_true_iff. left. apply Z.ltb_lt. lia. }
  exact (every_frame_emits_in_order [frame 2 0; frame 1 5; frame 1 5; frame 7 250000]
           steady_session Hq Hgyro eq_refl).
Defined.

(** ** The write handler *)

Lemma canwrite_needs_pollout (fds : Fds) (d : pollfd) (p : Source) (ps : list Source) :
  In (handle_canwrite p) (dispatch_desc fds d ps) -> Z.land (revents d) POLLOUT <> 0.
Proof.
  induction ps as [| q ps IH]; cbn [dispatch_desc]; intros Hin; [destruct Hin |].
  destruct (fd d =? fd_of fds q); [| exact (IH Hin)].
  apply in_app_or in Hin. destruct Hin as [Hin | Hin].
  - destruct (negb (Z.land (revents d) (Z.lor POLLIN POLLPRI) =? 0));
      [destruct Hin as [Hin | []]; discriminate Hin | destruct Hin].
  - destruct (Z.eqb_spec (Z.land (revents d) POLLOUT) 0) as [Hz | Hnz];
      cbn [negb] in Hin; [destruct Hin | exact Hnz].
Qed.

Lemma set_revents_reported (desc : list pollfd) (rs : list Z) :
  poll_reports desc rs ->
  Forall (fun d => Z.land (revents d)
                     (Z.lor (events d) (Z.lor POLLERR (Z.lor POLLHUP POLLNVAL)))
                   = revents d)
         (set_revents desc rs).
Proof.
  unfold poll_reports, set_revents.
  induction 1 as [| d rev desc rs Hd _ IH]; cbn [combine map]; constructor.
  - cbn [fst snd revents events]. exact Hd.
  - exact IH.
Qed.

Lemma set_revents_keeps_events (desc : list pollfd) (ev : Z) :
  Forall (fun d => events d = ev) desc ->
  forall rs, Forall (fun d => events d = ev) (set_revents desc rs).
Proof.
  unfold set_revents.
  induction 1 as [| d desc Hd _ IH]; intros rs; [constructor |].
  destruct rs as [| r rs]; [constructor |].
  cbn [combine map]. constructor; [exact Hd | apply IH].
Qed.

(** X25.  The descriptors ask for POLLIN only (line 81), so under [poll]'s
    contract (it reports what was asked for, and POLLERR, POLLHUP or
    POLLNVAL) no wake-up ever invokes a write handler. *)
Theorem write_handler_never_invoked (fds : Fds) (r : PollResult) (p : Source) :
  poll_reports (desc_init fds) (poll_revents r) ->
  ~ In (handle_canwrite p) (loop_iteration fds r).
Proof.
  intros Hpoll Hin.
  rewrite loop_iteration_firstn in Hin.
  apply in_flat_map in Hin. destruct Hin as [d [Hd Hcall]].
  apply In_firstn in Hd.
  pose proof (set_revents_reported _ _ Hpoll) as Hrep.
  assert (Hev : Forall (fun d => events d = POLLIN)
                  (set_revents (desc_init fds) (poll_revents r))).
  { apply set_revents_keeps_events. unfold desc_init, pollables.
    repeat constructor. }
  rewrite Forall_forall in Hrep, Hev.
  specialize (Hrep d Hd). specialize (Hev d Hd). rewrite Hev in Hrep.
  apply (canwrite_needs_pollout fds d p pollables Hcall).
  rewrite <- Hrep, <- Z.land_assoc. apply Z.land_0_r.
Qed.

Lemma write_handler_never_invoked_witness :
  loop_iteration (mkFds 3 4 5) (mkPoll 3 [POLLIN; Z.lor POLLIN POLLHUP; POLLERR])
  = [handle_read SrcCamera; handle_read SrcBmi]
  /\ ~ In (handle_canwrite SrcMavlink)
         (loop_iteration (mkFds 3 4 5) (mkPoll 3 [POLLIN; Z.lor POLLIN POLLHUP; POLLERR])).
Proof.
  split; [reflexivity |].
  apply (write_handler_never_invoked (mkFds 3 4 5)
           (mkPoll 3 [POLLIN; Z.lor POLLIN POLLHUP; POLLERR]) SrcMavlink).
  repeat constructor.
Defined.
